(** * RipeSense backend: the classification pipeline

    A shallow embedding of [backend/services/classifier.py] and of the
    [/classify] endpoint of [backend/main.py].

    Conventions of the embedding:
    - NumPy and Python floats are exact rationals ([Q]); every statement
      below is about the arithmetic of the pipeline, not about rounding.
    - A Python exception is a value [Exn cls msg]; a call that may raise
      returns a [result].
    - The classifier object is a record threaded through the methods
      that mutate it ([load_model], [classify]).
    - What the operating system and the imported libraries decide
      (whether TensorFlow imported, which paths exist, what a model file
      loads to, what [base64.b64decode] and [PIL.Image.open] accept,
      whether the pixel data of an opened image loads, the values of the
      resampling filter, the random draws) enters as parameters. *)

From Stdlib Require Import QArith String Ascii List Sorted Permutation Lia Lqa.
From stdpp Require Import gmap strings list pretty.
Import ListNotations.

Local Open Scope string_scope.
Local Open Scope list_scope.

(** ** Python exceptions and fallible calls *)

Inductive exn_class : Type :=
  | ValueError
  | BinasciiError          (* binascii.Error, raised by base64.b64decode *)
  | ValidationError        (* pydantic.ValidationError *)
  | UnidentifiedImageError (* PIL.UnidentifiedImageError *)
  | OSError                (* raised by PIL when it loads the pixel data *)
  | IndexError
  | AttributeError.

(** [isinstance(e, ValueError)]: binascii.Error and pydantic's
    ValidationError derive from ValueError; PIL's UnidentifiedImageError
    derives from OSError. *)
Definition is_ValueError (c : exn_class) : bool :=
  match c with
  | ValueError | BinasciiError | ValidationError => true
  | UnidentifiedImageError | OSError | IndexError | AttributeError => false
  end.

Record exn : Type := Exn { exn_cls : exn_class; exn_msg : string }.

(** [str(e)] *)
Definition str_exn (e : exn) : string := exn_msg e.

Inductive result (A : Type) : Type :=
  | Ok (a : A)
  | Raise (e : exn).
Arguments Ok {A} a.
Arguments Raise {A} e.

(** Sequencing of fallible calls: the first exception raised wins.
    With these instances [x ← r; k] is stdpp's monadic bind. *)
#[global] Instance result_bind : MBind result :=
  fun A B (k : A -> result B) (r : result A) =>
    match r with
    | Ok a => k a
    | Raise e => Raise e
    end.

#[global] Instance result_ret : MRet result := fun A (a : A) => Ok a.

(** What a library call does: it returns, or it fails with a message
    (the caller knows which exception class the library uses). *)
Inductive outcome (A : Type) : Type :=
  | Returns (a : A)
  | Fails (msg : string).
Arguments Returns {A} a.
Arguments Fails {A} msg.

(** ** Class tables *)

Record class_info : Type := ClassInfo { name : string; label : string }.

Definition AVOCADO_CLASSES : gmap nat class_info :=
  <[0%nat := ClassInfo "underripe" "Underripe"]>
  (<[1%nat := ClassInfo "breaking" "Breaking"]>
  (<[2%nat := ClassInfo "ripe_stage_1" "Ripe (Stage 1)"]>
  (<[3%nat := ClassInfo "ripe_stage_2" "Ripe (Stage 2)"]>
  (<[4%nat := ClassInfo "overripe" "Overripe"]> ∅)))).

Definition BANANA_CLASSES : gmap nat class_info :=
  <[0%nat := ClassInfo "unripe" "Unripe"]>
  (<[1%nat := ClassInfo "ripe" "Ripe"]>
  (<[2%nat := ClassInfo "overripe" "Overripe"]> ∅)).

Definition MODEL_INPUT_SIZE : nat * nat := (224%nat, 224%nat).

(** [self.class_mappings], set in [__init__] and never written again. *)
Definition class_mappings : gmap string (gmap nat class_info) :=
  <["avocado" := AVOCADO_CLASSES]> (<["banana" := BANANA_CLASSES]> ∅).

(** [d.get(k, default)] *)
Definition dict_get `{Countable K} {V : Type}
    (d : gmap K V) (k : K) (default : V) : V :=
  match d !! k with
  | Some v => v
  | None => default
  end.

(** ** Images and tensors *)

(** One RGB pixel as [np.array] sees it: three uint8 channels. *)
Definition pixel : Type := (Byte.byte * Byte.byte * Byte.byte)%type.

(** An image in mode RGB: its size and its pixel at column [x], row [y]. *)
Record RGBImage : Type := MkRGB {
  rgb_width : nat;
  rgb_height : nat;
  getpixel : nat -> nat -> pixel
}.

(** A NumPy array of rank 4 (batch, height, width, channels). *)
Definition Tensor : Type := list (list (list (list Q))).

(** A loaded Keras model: [model.predict] maps a batch to a batch of
    output rows. *)
Definition Model : Type := Tensor -> list (list Q).

(** An entry of [self.models]: the string "mock" or a loaded model. *)
Inductive handle : Type :=
  | Mock
  | Real (m : Model).

(** A [pathlib.Path] built with [/]: the operands in order. Which file
    the operands name (an absolute operand discards what precedes it,
    dots and empty parts are normalised) is for the filesystem to say. *)
Definition Path : Type := list string.

(** The filesystem and TensorFlow's loader as one call of [load_model]
    finds them. [keras_load_model p = None] when
    [tf.keras.models.load_model] raises. *)
Record filesystem : Type := MkFS {
  path_exists : Path -> bool;
  keras_load_model : Path -> option Model
}.

(** The attributes of a [ProduceClassifier] that change or are read. *)
Record classifier : Type := MkClassifier {
  models_dir : string;
  models : gmap string handle;
  use_mock : bool
}.

(** [ProduceClassifier.__init__] *)
Definition init (dir : string) (mock : bool) : classifier :=
  MkClassifier dir ∅ mock.

Definition set_model (pt : string) (h : handle) (self : classifier) : classifier :=
  MkClassifier (models_dir self) (<[pt := h]> (models self)) (use_mock self).

Definition set_use_mock (b : bool) (self : classifier) : classifier :=
  MkClassifier (models_dir self) (models self) b.

(** [Path(dir) / pt / leaf] *)
Definition joinpath (dir pt leaf : string) : Path := [dir; pt; leaf].

Section Registry.

(** The module constant set by [import tensorflow]. *)
Variable TF_AVAILABLE : bool.

(** [ProduceClassifier.load_model]: the returned flag and the
    classifier afterwards. *)
Definition load_model (fs : filesystem) (produce_type : string)
    (self : classifier) : bool * classifier :=
  if use_mock self then
    (true, set_model produce_type Mock self)
  else if decide (is_Some (models self !! produce_type)) then
    (true, self)
  else if negb TF_AVAILABLE then
    (true, set_model produce_type Mock (set_use_mock true self))
  else
    let h5_path := joinpath (models_dir self) produce_type "keras_model.h5" in
    let saved_model_path := joinpath (models_dir self) produce_type "saved_model" in
    let model_path :=
      if path_exists fs h5_path then Some h5_path
      else if path_exists fs saved_model_path then Some saved_model_path
      else None in
    match model_path with
    | None => (true, set_model produce_type Mock self)
    | Some p =>
        match keras_load_model fs p with
        | Some model => (true, set_model produce_type (Real model) self)
        | None => (true, set_model produce_type Mock self)
        end
    end.

End Registry.

(** ** Strings, lists and arrays as Python and NumPy index them *)

(** [c in s] for a one-character [c] *)
Fixpoint contains (c : ascii) (s : string) : bool :=
  match s with
  | EmptyString => false
  | String a rest => if Ascii.eqb a c then true else contains c rest
  end.

(** [s.split(sep)] for a one-character separator: every occurrence of
    [sep] ends a piece, so the result has one piece more than [s] has
    separators. *)
Fixpoint split (sep : ascii) (s : string) : list string :=
  match s with
  | EmptyString => [EmptyString]
  | String a rest =>
      if Ascii.eqb a sep then EmptyString :: split sep rest
      else match split sep rest with
           | piece :: pieces => String a piece :: pieces
           | [] => [String a EmptyString]
           end
  end.

(** [l[i]] for a non-negative literal index *)
Definition getitem {A : Type} (l : list A) (i : nat) : result A :=
  match l !! i with
  | Some x => Ok x
  | None => Raise (Exn IndexError "index out of range")
  end.

(** [a[i] = v] on a NumPy vector: a negative index counts from the end,
    an index outside [-len, len) raises. *)
Definition setitem {A : Type} (a : list A) (i : Z) (v : A) : result (list A) :=
  let n := Z.of_nat (length a) in
  if (0 <=? i)%Z && (i <? n)%Z then Ok (<[Z.to_nat i := v]> a)
  else if (- n <=? i)%Z && (i <? 0)%Z then Ok (<[Z.to_nat (n + i) := v]> a)
  else Raise (Exn IndexError "index out of bounds").

(** [a.sum()] *)
Definition sum (a : list Q) : Q := foldr Qplus 0%Q a.

Definition Qlt_bool (x y : Q) : bool := negb (Qle_bool y x).

(** [l.sort(key=key, reverse=True)]: Python's sort is stable, also with
    [reverse=True]: of two elements with equal keys the one that came
    first stays first. [insert_desc key x l] puts [x], which came before
    every element of [l], behind the elements with a strictly larger key
    only. *)
Fixpoint insert_desc {A : Type} (key : A -> Q) (x : A) (l : list A) : list A :=
  match l with
  | [] => [x]
  | y :: l' =>
      if Qlt_bool (key x) (key y) then y :: insert_desc key x l'
      else x :: y :: l'
  end.

Definition sort_reverse {A : Type} (key : A -> Q) (l : list A) : list A :=
  foldr (insert_desc key) [] l.

(** ** The sources of randomness of one mock prediction *)

Record rng : Type := MkRng {
  np_random : nat -> Q;       (* the i-th sample of np.random.random(n) *)
  randint : Z -> Z -> Z;      (* random.randint(a, b) *)
  uniform : Q -> Q -> Q       (* random.uniform(a, b) *)
}.

(** What the libraries promise about the draws. *)
Definition rng_ok (g : rng) : Prop :=
  (forall i, (0 <= np_random g i)%Q /\ (np_random g i < 1)%Q) /\
  (forall a b, (a <= b)%Z -> (a <= randint g a b)%Z /\ (randint g a b <= b)%Z) /\
  (forall a b, (a <= b)%Q -> (a <= uniform g a b)%Q /\ (uniform g a b <= b)%Q).

(** ** Results *)

Record PredictionItem : Type := MkItem {
  class_name : string;
  class_label : string;
  confidence : Q
}.

(** The dictionary [classify] returns; [top_confidence] is its key
    "confidence". *)
Record ClassificationResult : Type := MkResult {
  success : bool;
  produce_type : string;
  predicted_class : string;
  predicted_label : string;
  top_confidence : Q;
  all_predictions : list PredictionItem
}.

(** [_mock_predict], given the draws. *)
Definition _mock_predict (g : rng) (produce_type : string) : result (list Q) :=
  let class_mapping := dict_get class_mappings produce_type AVOCADO_CLASSES in
  let num_classes := size class_mapping in
  let predictions := map (np_random g) (seq 0 num_classes) in
  if (Z.of_nat num_classes - 1 <? 0)%Z then
    Raise (Exn ValueError "empty range for randrange()")
  else
    let dominant_idx := randint g 0 (Z.of_nat num_classes - 1) in
    predictions ← setitem predictions dominant_idx (uniform g (7 # 10) (95 # 100));
    Ok (map (fun p => p / sum predictions)%Q predictions).

(** The loop of [classify] over [enumerate(predictions)]. *)
Definition prediction_items (class_mapping : gmap nat class_info)
    (predictions : list Q) : list PredictionItem :=
  imap (fun idx confidence =>
          let class_info :=
            dict_get class_mapping idx
              (ClassInfo ("class_" ++ pretty idx) ("Class " ++ pretty idx)) in
          MkItem (name class_info) (label class_info) confidence)
       predictions.

(** The second half of [classify]: from the prediction vector to the
    returned dictionary. *)
Definition classify_response (produce_type : string) (predictions : list Q)
    : result ClassificationResult :=
  let class_mapping := dict_get class_mappings produce_type ∅ in
  let all_predictions :=
    sort_reverse confidence (prediction_items class_mapping predictions) in
  top_prediction ← getitem all_predictions 0;
  Ok (MkResult true produce_type
        (class_name top_prediction) (class_label top_prediction)
        (confidence top_prediction) all_predictions).

(** ** The pipeline *)

(** The request body after FastAPI validated it: [produce_type] is the
    literal "avocado" or "banana". *)
Inductive produce_literal : Type := avocado | banana.

Definition literal_str (p : produce_literal) : string :=
  match p with
  | avocado => "avocado"
  | banana => "banana"
  end.

Record ClassificationRequest : Type := MkRequest {
  image : string;
  request_produce_type : produce_literal
}.

(** What the endpoint sends: the response model, or an [HTTPException]. *)
Inductive http_response : Type :=
  | Http200 (body : ClassificationResult)
  | HTTPException (status_code : nat) (detail : string).

Definition in_unit_interval (q : Q) : bool := Qle_bool 0 q && Qle_bool q 1.

(** The constructor of the response model applied to the returned
    dictionary: the field constraints
    [ge=0.0, le=1.0] on [confidence], also of every item. *)
Definition ClassificationResponse (r : ClassificationResult)
    : result ClassificationResult :=
  if in_unit_interval (top_confidence r)
     && forallb (fun it => in_unit_interval (confidence it)) (all_predictions r)
  then Ok r
  else Raise (Exn ValidationError "validation error for ClassificationResponse").

Section Pipeline.

Variable TF_AVAILABLE : bool.

(** A [PIL.Image.Image] in whatever mode the file had. *)
Variable PILImage : Type.

(** [base64.b64decode] (fails with binascii.Error) and [Image.open]
    on the decoded bytes (fails with UnidentifiedImageError). *)
Variable b64decode : string -> outcome (list Byte.byte).
Variable Image_open : list Byte.byte -> outcome PILImage.

(** [image.convert('RGB')]: [Image.open] is lazy, the conversion is
    what loads the pixel data, and it fails with OSError when the file
    is truncated or its data corrupt. And the value of the Lanczos
    filter: the pixel at column [x], row [y] of the image resized to
    [size]. *)
Variable convert_RGB : PILImage -> outcome RGBImage.
Variable LANCZOS : RGBImage -> nat * nat -> nat -> nat -> pixel.

(** The string handed to [base64.b64decode]. *)
Definition b64_payload (base64_string : string) : result string :=
  if contains "," base64_string then getitem (split "," base64_string) 1
  else Ok base64_string.

Definition decode_base64_image (base64_string : string) : result PILImage :=
  base64_string ← b64_payload base64_string;
  match b64decode base64_string with
  | Fails msg => Raise (Exn BinasciiError msg)
  | Returns image_data =>
      match Image_open image_data with
      | Fails msg => Raise (Exn UnidentifiedImageError msg)
      | Returns image => Ok image
      end
  end.

(** [image.resize(size, LANCZOS)]: an image of the requested size. *)
Definition resize (size : nat * nat) (im : RGBImage) : RGBImage :=
  MkRGB (fst size) (snd size) (LANCZOS im size).

Definition byte_value (b : Byte.byte) : Q := inject_Z (Z.of_N (Byte.to_N b)).

(** [np.array(image, dtype=np.float32)]: rows, columns, channels. *)
Definition np_array (im : RGBImage) : list (list (list Q)) :=
  map (fun y =>
         map (fun x =>
                let '(r, g, b) := getpixel im x y in
                [byte_value r; byte_value g; byte_value b])
             (seq 0 (rgb_width im)))
      (seq 0 (rgb_height im)).

Definition preprocess_image (image : PILImage) : result Tensor :=
  match convert_RGB image with
  | Fails msg => Raise (Exn OSError msg)
  | Returns image =>
      let image := resize MODEL_INPUT_SIZE image in
      let img_array := map (map (map (fun v => v / 255)%Q)) (np_array image) in
      Ok [img_array]
  end.

(** [classify]: the classifier afterwards ([load_model] may have
    written to it) and the dictionary returned or the exception
    raised. *)
Definition classify (fs : filesystem) (g : rng)
    (image_base64 produce_type : string) (self : classifier)
    : classifier * result ClassificationResult :=
  let '(loaded, self) := load_model TF_AVAILABLE fs produce_type self in
  (self,
   if negb loaded then
     Raise (Exn ValueError
              ("Model not available for produce type: " ++ produce_type))
   else
     image ← decode_base64_image image_base64;
     input_data ← preprocess_image image;
     let model := models self !! produce_type in
     predictions ←
       match model with
       | Some Mock => _mock_predict g produce_type
       | Some (Real m) =>
           if negb TF_AVAILABLE then _mock_predict g produce_type
           else getitem (m input_data) 0
       | None =>
           if negb TF_AVAILABLE then _mock_predict g produce_type
           else Raise (Exn AttributeError
                         "'NoneType' object has no attribute 'predict'")
       end;
     classify_response produce_type predictions).

(** The handler of [POST /classify] in [main.py]. *)
Definition classify_produce (fs : filesystem) (g : rng)
    (request : ClassificationRequest) (self : classifier)
    : classifier * http_response :=
  let '(self, result) :=
    classify fs g (image request)
             (literal_str (request_produce_type request)) self in
  (self,
   match result ≫= ClassificationResponse with
   | Ok response => Http200 response
   | Raise e =>
       if is_ValueError (exn_cls e) then HTTPException 400 (str_exn e)
       else HTTPException 500 ("Classification failed: " ++ str_exn e)
   end).

End Pipeline.

(** ** Vocabulary of the statements *)

(** The text behind the first [sep], when there is one. *)
Fixpoint after_first (sep : ascii) (s : string) : option string :=
  match s with
  | EmptyString => None
  | String a rest => if Ascii.eqb a sep then Some rest else after_first sep rest
  end.

(** The text before the first [sep]; all of [s] when there is none. *)
Fixpoint before_first (sep : ascii) (s : string) : string :=
  match s with
  | EmptyString => EmptyString
  | String a rest =>
      if Ascii.eqb a sep then EmptyString else String a (before_first sep rest)
  end.

(** What lies between the first comma and the next one (or the end);
    the whole input when it has no comma. *)
Definition data_url_payload (s : string) : string :=
  match after_first "," s with
  | Some rest => before_first "," rest
  | None => s
  end.

(** Non-increasing by key. *)
Definition desc {A : Type} (key : A -> Q) (a b : A) : Prop := (key b <= key a)%Q.

(** The elements of [l] whose key equals [c], in the order of [l]. *)
Definition ties {A : Type} (key : A -> Q) (c : Q) (l : list A) : list A :=
  List.filter (fun a => Qeq_bool (key a) c) l.

(** The vector of [_mock_predict] before it is normalised. *)
Definition raw_mock (g : rng) (n : nat) : list Q :=
  <[Z.to_nat (randint g 0 (Z.of_nat n - 1)) := uniform g (7 # 10) (95 # 100)]>
    (map (np_random g) (seq 0 n)).

(** Every cached handle is the mock marker. *)
Definition all_mock (self : classifier) : Prop :=
  forall k h, models self !! k = Some h -> h = Mock.

(** What holds of a classifier however it was used: real models are
    cached only while TensorFlow is there and mock mode is off. *)
Definition registry_inv (TF_AVAILABLE : bool) (self : classifier) : Prop :=
  use_mock self = true \/ TF_AVAILABLE = false -> all_mock self.

(** A run of [load_model] calls, each with the filesystem it finds. *)
Definition load_models (TF_AVAILABLE : bool)
    (calls : list (filesystem * string)) (self : classifier) : classifier :=
  foldl (fun s c => (load_model TF_AVAILABLE c.1 c.2 s).2) self calls.

(** [t.shape == (n, h, w, c)] *)
Definition has_shape (n h w c : nat) (t : Tensor) : Prop :=
  length t = n /\
  Forall (fun plane =>
    length plane = h /\
    Forall (fun row =>
      length row = w /\
      Forall (fun px => length px = c) row) plane) t.

(** Every element of the tensor satisfies [P]. *)
Definition all_elements (P : Q -> Prop) (t : Tensor) : Prop :=
  Forall (Forall (Forall (Forall P))) t.

(** [t[0][y][x]] *)
Definition tensor_pixel (t : Tensor) (y x : nat) : option (list Q) :=
  plane ← t !! 0%nat; row ← plane !! y; row !! x.

(** The artifact [load_model] tries to load: the H5 file if it exists,
    else the SavedModel directory if it exists. *)
Definition model_path (fs : filesystem) (self : classifier)
    (produce_type : string) : option Path :=
  let h5_path := joinpath (models_dir self) produce_type "keras_model.h5" in
  let saved_model_path := joinpath (models_dir self) produce_type "saved_model" in
  if path_exists fs h5_path then Some h5_path
  else if path_exists fs saved_model_path then Some saved_model_path
  else None.

(** The inference step of [classify]: which vector comes out for the
    handle found in [self.models]. *)
Definition inference (TF_AVAILABLE : bool) (g : rng) (produce_type : string)
    (model : option handle) (input_data : Tensor) : result (list Q) :=
  match model with
  | Some Mock => _mock_predict g produce_type
  | Some (Real m) =>
      if negb TF_AVAILABLE then _mock_predict g produce_type
      else getitem (m input_data) 0
  | None =>
      if negb TF_AVAILABLE then _mock_predict g produce_type
      else Raise (Exn AttributeError
                    "'NoneType' object has no attribute 'predict'")
  end.

(** [r] raises an exception of class [c]. *)
Definition raises {A : Type} (r : result A) (c : exn_class) : Prop :=
  exists msg, r = Raise (Exn c msg).

(** ** A test double of the environment

    Used to run the pipeline on concrete requests. Its decoder knows
    four payloads and rejects every other string:
    - the base64 text of a complete PNG file of one RGB pixel
      (255, 128, 0), which its [Image.open] opens and whose data loads;
    - the base64 text of the first 45 bytes of that file, which end
      inside the image data: [Image.open] reads the header and opens
      it, loading the data fails;
    - the base64 text of the eight bytes of the PNG signature alone and
      of the five bytes "hello", which [Image.open] does not recognise.
    Its messages stand in for the libraries' own. *)

Definition pixel_png_b64 : string :=
  "iVBORw0KGgoAAAANSUhEUgAAAAEAAAABCAIAAACQd1PeAAAADElEQVR42mP438AAAAQBAYD718vxAAAAAElFTkSuQmCC".

Definition truncated_png_b64 : string :=
  "iVBORw0KGgoAAAANSUhEUgAAAAEAAAABCAIAAACQd1PeAAAADElEQVR42mP4".

Definition pixel_png : list Byte.byte :=
  [Byte.x89; Byte.x50; Byte.x4e; Byte.x47; Byte.x0d; Byte.x0a; Byte.x1a;
   Byte.x0a; Byte.x00; Byte.x00; Byte.x00; Byte.x0d; Byte.x49; Byte.x48;
   Byte.x44; Byte.x52; Byte.x00; Byte.x00; Byte.x00; Byte.x01; Byte.x00;
   Byte.x00; Byte.x00; Byte.x01; Byte.x08; Byte.x02; Byte.x00; Byte.x00;
   Byte.x00; Byte.x90; Byte.x77; Byte.x53; Byte.xde; Byte.x00; Byte.x00;
   Byte.x00; Byte.x0c; Byte.x49; Byte.x44; Byte.x41; Byte.x54; Byte.x78;
   Byte.xda; Byte.x63; Byte.xf8; Byte.xdf; Byte.xc0; Byte.x00; Byte.x00;
   Byte.x04; Byte.x01; Byte.x01; Byte.x80; Byte.xfb; Byte.xd7; Byte.xcb;
   Byte.xf1; Byte.x00; Byte.x00; Byte.x00; Byte.x00; Byte.x49; Byte.x45;
   Byte.x4e; Byte.x44; Byte.xae; Byte.x42; Byte.x60; Byte.x82].

Definition truncated_png : list Byte.byte := take 45 pixel_png.

Definition png_bytes : list Byte.byte := take 8 pixel_png.

Definition hello_bytes : list Byte.byte :=
  [Byte.x68; Byte.x65; Byte.x6c; Byte.x6c; Byte.x6f].

Definition fake_b64decode (s : string) : outcome (list Byte.byte) :=
  if String.eqb s pixel_png_b64 then Returns pixel_png
  else if String.eqb s truncated_png_b64 then Returns truncated_png
  else if String.eqb s "iVBORw0KGgo=" then Returns png_bytes
  else if String.eqb s "aGVsbG8=" then Returns hello_bytes
  else Fails "Incorrect padding".

Definition one_pixel : RGBImage :=
  MkRGB 1 1 (fun _ _ => (Byte.xff, Byte.x80, Byte.x00)).

(** An opened image: one whose pixel data will load, or one whose file
    ends before its data does. *)
Inductive fake_image : Type :=
  | Complete (pixels : RGBImage)
  | Truncated.

Definition same_bytes (a b : list Byte.byte) : bool :=
  bool_decide (map Byte.to_N a = map Byte.to_N b).

Definition fake_Image_open (data : list Byte.byte) : outcome fake_image :=
  if same_bytes data pixel_png then Returns (Complete one_pixel)
  else if same_bytes data truncated_png then Returns Truncated
  else Fails "cannot identify image file".

Definition fake_convert_RGB (im : fake_image) : outcome RGBImage :=
  match im with
  | Complete pixels => Returns pixels
  | Truncated => Fails "image file is truncated"
  end.

(** Nearest-neighbour sampling stands in for the Lanczos filter. *)
Definition fake_LANCZOS (im : RGBImage) (size : nat * nat) (x y : nat) : pixel :=
  getpixel im (x * rgb_width im / fst size) (y * rgb_height im / snd size).

(** A filesystem with no model files, and one whose avocado model loads
    to a network with two outputs, and one whose avocado model file is
    corrupt. *)
Definition no_models : filesystem := MkFS (fun _ => false) (fun _ => None).

Definition two_output_model : Model := fun _ => [[6 # 10; 4 # 10]].

Definition avocado_h5 : filesystem :=
  MkFS (fun p => bool_decide (p = ["models"; "avocado"; "keras_model.h5"]))
       (fun _ => Some two_output_model).

Definition corrupt_h5 : filesystem :=
  MkFS (fun p => bool_decide (p = ["models"; "avocado"; "keras_model.h5"]))
       (fun _ => None).

(** Draws: every NumPy sample is 1/2, [randint] returns its lower bound,
    [uniform(a, b)] returns [a + (b - a) / 5], that is 3/4 on
    [0.7, 0.95]. *)
Definition half_draws : rng :=
  MkRng (fun _ => 1 # 2) (fun a _ => a) (fun a b => a + (b - a) * (1 # 5))%Q.

(** A filesystem whose avocado H5 file loads to the model [m]. *)
Definition h5_with (m : Model) : filesystem :=
  MkFS (fun p => bool_decide (p = ["models"; "avocado"; "keras_model.h5"]))
       (fun _ => Some m).

(** Models with an empty batch, with an empty output row, and with
    outputs that are no probabilities. *)
Definition no_rows_model : Model := fun _ => [].

Definition empty_row_model : Model := fun _ => [[]].

Definition logit_model : Model := fun _ => [[3 # 2; - (1 # 2)]]%Q.

(** ** The application: the singleton and the handlers of [main.py] *)

(** The body of [GET /health]. *)
Record HealthBody : Type := MkHealth {
  status : string;
  available_produce_types : list string
}.

Section App.

Variable TF_AVAILABLE : bool.

(** The directory [models] beside the package, as [get_classifier]
    computes it from [__file__]. *)
Variable MODELS_DIR : string.

Variable PILImage : Type.
Variable b64decode : string -> outcome (list Byte.byte).
Variable Image_open : list Byte.byte -> outcome PILImage.
Variable convert_RGB : PILImage -> outcome RGBImage.
Variable LANCZOS : RGBImage -> nat * nat -> nat -> nat -> pixel.

(** [get_classifier]: the module global [_classifier] is passed in and
    out. The object returned is the one the global names, so whatever a
    method then writes to it is written to the global as well. *)
Definition get_classifier (use_mock : bool) (_classifier : option classifier)
    : classifier * option classifier :=
  match _classifier with
  | None =>
      let c := init MODELS_DIR use_mock in (c, Some c)
  | Some c => (c, Some c)
  end.

(** The startup half of [lifespan]; the shutdown half only prints. *)
Definition lifespan (fs : filesystem) (_classifier : option classifier)
    : option classifier :=
  let '(classifier, _) := get_classifier false _classifier in
  Some (load_model TF_AVAILABLE fs "avocado" classifier).2.

(** [GET /] *)
Definition root : list (string * string) :=
  [("status", "healthy"); ("service", "RipeSense API"); ("version", "1.0.0")].

(** [GET /health] *)
Definition health_check (_classifier : option classifier)
    : option classifier * HealthBody :=
  let '(_, _classifier) := get_classifier false _classifier in
  (_classifier, MkHealth "healthy" ["avocado"; "banana"]).

(** [POST /classify] with the singleton it fetches: [classify_produce]
    run on the global classifier. *)
Definition post_classify (fs : filesystem) (g : rng)
    (request : ClassificationRequest) (_classifier : option classifier)
    : option classifier * http_response :=
  let '(classifier, _) := get_classifier false _classifier in
  let '(classifier, response) :=
    classify_produce TF_AVAILABLE PILImage b64decode Image_open convert_RGB
      LANCZOS fs g request classifier in
  (Some classifier, response).

(** What happens to the process: startup, and the requests it serves,
    each with the filesystem and the draws it meets. *)
Inductive event : Type :=
  | Startup (fs : filesystem)
  | GetRoot
  | GetHealth
  | PostClassify (fs : filesystem) (g : rng) (request : ClassificationRequest).

Definition serve (_classifier : option classifier) (e : event)
    : option classifier :=
  match e with
  | Startup fs => lifespan fs _classifier
  | GetRoot => _classifier
  | GetHealth => (health_check _classifier).1
  | PostClassify fs g request => (post_classify fs g request _classifier).1
  end.

Definition serve_all (events : list event) (_classifier : option classifier)
    : option classifier :=
  foldl serve _classifier events.

End App.

(** * Facts *)

(** ** The model registry *)

Ltac load_cases :=
  unfold load_model;
  repeat match goal with
         | |- context [if use_mock ?s then _ else _] => destruct (use_mock s) eqn:?
         | |- context [decide ?P] => destruct (decide P)
         | |- context [negb ?b] => destruct b eqn:?; simpl negb
         | |- context [if path_exists ?f ?p then _ else _] => destruct (path_exists f p) eqn:?
         | |- context [keras_load_model ?f ?p] => destruct (keras_load_model f p) eqn:?
         end; cbn [fst snd].

Lemma load_model_True TF fs pt self : (load_model TF fs pt self).1 = true.
Proof. load_cases; reflexivity. Qed.

Lemma set_model_id pt h self :
  models self !! pt = Some h -> set_model pt h self = self.
Proof.
  intros Hh. destruct self as [d m u]; unfold set_model; simpl in *.
  by rewrite insert_id.
Qed.

Lemma lookup_set_model pt h self : models (set_model pt h self) !! pt = Some h.
Proof. unfold set_model; simpl. apply lookup_insert_eq. Qed.

Lemma lookup_set_model_ne pt pt' h self :
  pt <> pt' -> models (set_model pt h self) !! pt' = models self !! pt'.
Proof. intros. unfold set_model; simpl. by apply lookup_insert_ne. Qed.

Lemma load_model_cached TF fs pt self :
  is_Some (models (load_model TF fs pt self).2 !! pt).
Proof. load_cases; try assumption; rewrite lookup_set_model; eauto. Qed.

Lemma load_model_mock_mode TF fs pt self :
  use_mock (load_model TF fs pt self).2 = true ->
  models (load_model TF fs pt self).2 !! pt = Some Mock.
Proof.
  load_cases; intros Hm; try apply lookup_set_model; cbn in Hm; congruence.
Qed.

Lemma load_model_again TF fs fs' pt self :
  load_model TF fs' pt (load_model TF fs pt self).2
  = (true, (load_model TF fs pt self).2).
Proof.
  pose proof (load_model_cached TF fs pt self) as Hc.
  pose proof (load_model_mock_mode TF fs pt self) as Hm.
  set (s1 := (load_model TF fs pt self).2) in *.
  unfold load_model at 1.
  destruct (use_mock s1).
  - by rewrite set_model_id by auto.
  - by rewrite decide_True.
Qed.

Lemma all_mock_set_model pt self : all_mock self -> all_mock (set_model pt Mock self).
Proof.
  intros Ha k h. unfold set_model; simpl. rewrite lookup_insert.
  case_decide; [congruence | apply Ha].
Qed.

Lemma registry_inv_init TF dir mock : registry_inv TF (init dir mock).
Proof. intros _ k h. unfold init; simpl. by rewrite lookup_empty. Qed.

Lemma registry_inv_load_model TF fs pt self :
  registry_inv TF self -> registry_inv TF (load_model TF fs pt self).2.
Proof.
  unfold registry_inv. load_cases; intros Hinv Hm;
    try (apply all_mock_set_model; apply Hinv; auto; fail);
    try (apply Hinv; auto; fail);
    try (destruct Hm; simpl in *; congruence).
  destruct Hm; [congruence | apply Hinv; by right].
Qed.

Lemma registry_inv_load_models TF calls self :
  registry_inv TF self -> registry_inv TF (load_models TF calls self).
Proof.
  revert self. induction calls as [|c calls IH]; intros self Hinv; simpl; [done|].
  apply IH. by apply registry_inv_load_model.
Qed.

Lemma load_model_keeps TF fs pt' pt h self :
  registry_inv TF self ->
  models self !! pt = Some h ->
  models (load_model TF fs pt' self).2 !! pt = Some h.
Proof.
  intros Hinv Hh.
  assert (Hne : ~ is_Some (models self !! pt') -> pt' <> pt).
  { intros Hn ->. apply Hn. eauto. }
  revert Hinv. unfold registry_inv. load_cases; intros Hinv; try assumption;
    try (rewrite lookup_set_model_ne by auto; assumption).
  destruct (decide (pt' = pt)) as [->|].
  - rewrite lookup_set_model. f_equal. symmetry. eapply Hinv; eauto.
  - by rewrite lookup_set_model_ne.
Qed.

Lemma load_models_keeps TF calls pt h self :
  registry_inv TF self ->
  models self !! pt = Some h ->
  models (load_models TF calls self) !! pt = Some h.
Proof.
  revert self. induction calls as [|c calls IH]; intros self Hinv Hh; simpl; [done|].
  apply IH; [by apply registry_inv_load_model | by apply load_model_keeps].
Qed.

(** ** Sorting *)

Section Sort.
Context {A : Type} (key : A -> Q).

Lemma Qlt_bool_iff x y : Qlt_bool x y = true <-> (x < y)%Q.
Proof.
  unfold Qlt_bool. rewrite negb_true_iff.
  split.
  - intros Hf. apply Qnot_le_lt. intros Hle.
    apply Qle_bool_iff in Hle. congruence.
  - intros Hlt. apply not_true_is_false. intros Hle.
    apply Qle_bool_iff in Hle. apply (Qlt_not_le _ _ Hlt Hle).
Qed.

Lemma Qlt_bool_false x y : Qlt_bool x y = false -> (y <= x)%Q.
Proof.
  unfold Qlt_bool. rewrite negb_false_iff. apply Qle_bool_iff.
Qed.

Lemma insert_desc_perm x l : insert_desc key x l ≡ₚ x :: l.
Proof.
  induction l as [|y l IH]; simpl; [done|].
  destruct (Qlt_bool (key x) (key y)); [|done].
  rewrite IH. apply Permutation_swap.
Qed.

Lemma sort_reverse_perm l : sort_reverse key l ≡ₚ l.
Proof.
  induction l as [|x l IH]; simpl; [done|].
  rewrite insert_desc_perm. by rewrite IH.
Qed.

Lemma sort_reverse_length l : length (sort_reverse key l) = length l.
Proof. apply Permutation_length, sort_reverse_perm. Qed.

Lemma insert_desc_sorted x l :
  StronglySorted (desc key) l -> StronglySorted (desc key) (insert_desc key x l).
Proof.
  induction 1 as [|y l Hs IH Hy]; simpl.
  - repeat constructor.
  - destruct (Qlt_bool (key x) (key y)) eqn:Hlt.
    + constructor; [exact IH|].
      rewrite insert_desc_perm. constructor; [|exact Hy].
      apply Qlt_le_weak. by apply Qlt_bool_iff.
    + apply Qlt_bool_false in Hlt.
      constructor; [by constructor|].
      constructor; [exact Hlt|].
      eapply Forall_impl; [exact Hy|].
      intros z Hz. unfold desc in *. eapply Qle_trans; [exact Hz | exact Hlt].
Qed.

Lemma sort_reverse_sorted l : StronglySorted (desc key) (sort_reverse key l).
Proof.
  induction l as [|x l IH]; simpl; [constructor|].
  by apply insert_desc_sorted.
Qed.

Lemma ties_insert_desc c x l : ties key c (insert_desc key x l) = ties key c (x :: l).
Proof.
  induction l as [|y l IH]; [done|].
  simpl insert_desc. destruct (Qlt_bool (key x) (key y)) eqn:Hlt; [|done].
  apply Qlt_bool_iff in Hlt.
  unfold ties in *. simpl in *. rewrite IH.
  destruct (Qeq_bool (key x) c) eqn:Hx, (Qeq_bool (key y) c) eqn:Hy; try done.
  apply Qeq_bool_iff in Hx, Hy. rewrite Hx, Hy in Hlt.
  by apply Qlt_irrefl in Hlt.
Qed.

Lemma ties_sort_reverse c l : ties key c (sort_reverse key l) = ties key c l.
Proof.
  induction l as [|x l IH]; [done|].
  simpl sort_reverse. rewrite ties_insert_desc.
  unfold ties in *. simpl. by rewrite IH.
Qed.
End Sort.

(** ** Mock predictions *)

Lemma mock_table pt :
  dict_get class_mappings pt AVOCADO_CLASSES
  = if decide (pt = "banana") then BANANA_CLASSES else AVOCADO_CLASSES.
Proof.
  unfold dict_get, class_mappings.
  rewrite lookup_insert. case_decide as Ha.
  - subst pt. by rewrite decide_False.
  - rewrite lookup_insert. case_decide as Hb.
    + subst pt. by rewrite decide_True.
    + rewrite lookup_empty. by rewrite decide_False.
Qed.

Lemma label_table pt :
  pt <> "avocado" -> pt <> "banana" -> dict_get class_mappings pt ∅ = ∅.
Proof.
  intros Ha Hb. unfold dict_get, class_mappings.
  by rewrite !lookup_insert_ne, lookup_empty.
Qed.

Lemma mock_num_classes pt :
  size (dict_get class_mappings pt AVOCADO_CLASSES) = 3%nat \/
  size (dict_get class_mappings pt AVOCADO_CLASSES) = 5%nat.
Proof. rewrite mock_table. case_decide; [left | right]; reflexivity. Qed.

Lemma mock_predict_eq g pt :
  rng_ok g ->
  let n := size (dict_get class_mappings pt AVOCADO_CLASSES) in
  _mock_predict g pt = Ok (map (fun p => p / sum (raw_mock g n))%Q (raw_mock g n)).
Proof.
  intros (_ & Hint & _) n. unfold _mock_predict. fold n.
  assert (Hn : (1 <= n)%nat) by (subst n; destruct (mock_num_classes pt); lia).
  destruct (Z.ltb_spec (Z.of_nat n - 1) 0) as [|_]; [lia|].
  destruct (Hint 0%Z (Z.of_nat n - 1)%Z) as [Hlo Hhi]; [lia|].
  unfold setitem. rewrite length_map, length_seq.
  destruct (Z.leb_spec 0 (randint g 0 (Z.of_nat n - 1))) as [_|]; [|lia].
  destruct (Z.ltb_spec (randint g 0 (Z.of_nat n - 1)) (Z.of_nat n)) as [_|]; [|lia].
  reflexivity.
Qed.

Lemma raw_mock_length g n : length (raw_mock g n) = n.
Proof. unfold raw_mock. by rewrite length_insert, length_map, length_seq. Qed.

Lemma sum_nonneg l : Forall (fun p => 0 <= p)%Q l -> (0 <= sum l)%Q.
Proof.
  induction 1 as [|p l Hp _ IH]; simpl; [apply Qle_refl|].
  change 0%Q with (0 + 0)%Q. by apply Qplus_le_compat.
Qed.

Lemma sum_ge_elem l p :
  Forall (fun p => 0 <= p)%Q l -> p ∈ l -> (p <= sum l)%Q.
Proof.
  induction 1 as [|q l Hq Hl IH]; intros Hin.
  - by apply elem_of_nil in Hin.
  - apply elem_of_cons in Hin as [->|Hin]; simpl.
    + pose proof (sum_nonneg l Hl). lra.
    + specialize (IH Hin). lra.
Qed.

Lemma sum_scale l s : (sum (map (fun p => p / s) l) == sum l / s)%Q.
Proof.
  induction l as [|p l IH]; simpl.
  - unfold Qdiv. ring.
  - rewrite IH. unfold Qdiv. ring.
Qed.

Lemma raw_mock_nonneg g n :
  rng_ok g -> Forall (fun p => 0 <= p)%Q (raw_mock g n).
Proof.
  intros (Hnp & _ & Hu). unfold raw_mock.
  apply Forall_insert.
  - apply Forall_forall. intros p Hp.
    apply list_elem_of_fmap in Hp as (i & -> & _). apply Hnp.
  - destruct (Hu (7 # 10) (95 # 100))%Q as [H1 _]; [lra|]. lra.
Qed.

Lemma raw_mock_dominant g n :
  rng_ok g -> (1 <= n)%nat -> uniform g (7 # 10) (95 # 100) ∈ raw_mock g n.
Proof.
  intros (_ & Hint & _) Hn. unfold raw_mock.
  destruct (Hint 0%Z (Z.of_nat n - 1)%Z) as [Hlo Hhi]; [lia|].
  apply list_elem_of_lookup. exists (Z.to_nat (randint g 0 (Z.of_nat n - 1))).
  apply list_lookup_insert_eq. rewrite length_map, length_seq. lia.
Qed.

Lemma raw_mock_sum g n :
  rng_ok g -> (1 <= n)%nat -> (7 # 10 <= sum (raw_mock g n))%Q.
Proof.
  intros Hg Hn.
  eapply Qle_trans; [|apply sum_ge_elem;
                       [by apply raw_mock_nonneg | by apply raw_mock_dominant]].
  destruct Hg as (_ & _ & Hu). destruct (Hu (7 # 10) (95 # 100))%Q; [lra|done].
Qed.

Lemma mock_predict_distribution g pt :
  rng_ok g ->
  exists v, _mock_predict g pt = Ok v /\
            length v = size (dict_get class_mappings pt AVOCADO_CLASSES) /\
            (sum v == 1)%Q /\
            Forall (fun p => 0 <= p /\ p <= 1)%Q v.
Proof.
  intros Hg. set (n := size (dict_get class_mappings pt AVOCADO_CLASSES)).
  assert (Hn : (1 <= n)%nat) by (subst n; destruct (mock_num_classes pt); lia).
  pose proof (raw_mock_sum g n Hg Hn) as Hs.
  pose proof (raw_mock_nonneg g n Hg) as Hnn.
  eexists. split; [by apply mock_predict_eq|]. fold n.
  split; [by rewrite length_map, raw_mock_length|].
  split.
  - rewrite sum_scale. field. lra.
  - apply Forall_fmap. apply Forall_forall. intros p Hp. cbn.
    pose proof (sum_ge_elem _ p Hnn Hp) as Hle.
    rewrite Forall_forall in Hnn. specialize (Hnn p Hp). 
    split.
    + apply Qle_shift_div_l; lra.
    + apply Qle_shift_div_r; lra.
Qed.

(** ** The data-URL prefix *)

Lemma split_cons sep s :
  split sep s = before_first sep s ::
                match after_first sep s with
                | Some rest => split sep rest
                | None => []
                end.
Proof.
  induction s as [|a s IH]; simpl; [done|].
  destruct (Ascii.eqb a sep); [done|]. by rewrite IH.
Qed.

Lemma contains_after_first sep s :
  contains sep s = true <-> is_Some (after_first sep s).
Proof.
  induction s as [|a s IH]; simpl.
  - split; [done | by intros [? ?]].
  - destruct (Ascii.eqb a sep); [|done]. split; eauto.
Qed.

Lemma before_first_id sep s : contains sep s = false -> before_first sep s = s.
Proof.
  induction s as [|a s IH]; simpl; [done|].
  destruct (Ascii.eqb a sep); [done|]. intros H. by rewrite IH.
Qed.

Lemma after_first_app sep pre rest :
  contains sep pre = false ->
  after_first sep (pre ++ String sep rest) = Some rest.
Proof.
  induction pre as [|a pre IH]; simpl.
  - by rewrite Ascii.eqb_refl.
  - destruct (Ascii.eqb a sep); [done|]. apply IH.
Qed.

Lemma before_first_app sep mid post :
  contains sep mid = false ->
  before_first sep (mid ++ String sep post) = mid.
Proof.
  induction mid as [|a mid IH]; simpl.
  - by rewrite Ascii.eqb_refl.
  - destruct (Ascii.eqb a sep); [done|]. intros H. by rewrite IH.
Qed.

Lemma b64_payload_eq s : b64_payload s = Ok (data_url_payload s).
Proof.
  unfold b64_payload, data_url_payload.
  destruct (contains "," s) eqn:Hc.
  - apply contains_after_first in Hc as [rest Hrest].
    rewrite split_cons, Hrest. unfold getitem. simpl.
    by rewrite split_cons.
  - destruct (after_first "," s) eqn:Ha; [|done].
    assert (contains "," s = true) by (apply contains_after_first; eauto).
    congruence.
Qed.

(** ** The response builder *)

Lemma prediction_items_confidence tbl v :
  map confidence (prediction_items tbl v) = v.
Proof.
  unfold prediction_items. apply list_eq. intros i.
  rewrite list_lookup_fmap, list_lookup_imap.
  by destruct (v !! i).
Qed.

Lemma prediction_items_length tbl v : length (prediction_items tbl v) = length v.
Proof. unfold prediction_items. apply length_imap. Qed.

(** The item of index [i]: labelled from the table, or with the
    placeholder of [i] where the table has no entry. *)
Lemma prediction_items_lookup tbl v i c :
  v !! i = Some c ->
  prediction_items tbl v !! i
  = Some (match tbl !! i with
          | Some info => MkItem (name info) (label info) c
          | None => MkItem ("class_" ++ pretty i) ("Class " ++ pretty i) c
          end).
Proof.
  intros Hi. unfold prediction_items. rewrite list_lookup_imap, Hi. simpl.
  unfold dict_get. by destruct (tbl !! i).
Qed.

Lemma classify_response_ok pt c v :
  exists top rest,
    sort_reverse confidence (prediction_items (dict_get class_mappings pt ∅) (c :: v))
    = top :: rest /\
    classify_response pt (c :: v)
    = Ok (MkResult true pt (class_name top) (class_label top) (confidence top)
            (top :: rest)).
Proof.
  unfold classify_response.
  destruct (sort_reverse confidence
              (prediction_items (dict_get class_mappings pt ∅) (c :: v)))
    as [|top rest] eqn:Hs.
  - apply (f_equal length) in Hs.
    rewrite sort_reverse_length, prediction_items_length in Hs. done.
  - by exists top, rest.
Qed.

(** C6: for every non-empty prediction vector and every produce type
    the response builder returns a result with [success = true] whose
    [all_predictions] is sorted non-increasing by confidence; the sort
    is stable: for every confidence value [c], the items of confidence
    [c] appear in [all_predictions] in the order they have in the list
    built in class-index order (whose confidences are the vector
    itself); and [predicted_class], [predicted_label] and the top-level
    confidence are the fields of the first element of
    [all_predictions]. *)
Theorem response_sorted_stable_top pt (predictions : list Q) :
  predictions <> [] ->
  exists r top rest,
    classify_response pt predictions = Ok r /\
    success r = true /\
    StronglySorted (desc confidence) (all_predictions r) /\
    (forall c,
       ties confidence c (all_predictions r)
       = ties confidence c
           (prediction_items (dict_get class_mappings pt ∅) predictions)) /\
    map confidence (prediction_items (dict_get class_mappings pt ∅) predictions)
    = predictions /\
    all_predictions r = top :: rest /\
    predicted_class r = class_name top /\
    predicted_label r = class_label top /\
    top_confidence r = confidence top.
Proof.
  intros Hne. destruct predictions as [|c v]; [done|].
  destruct (classify_response_ok pt c v) as (top & rest & Hs & Hr).
  eexists _, top, rest. split; [exact Hr|].
  cbn [success all_predictions predicted_class predicted_label top_confidence].
  rewrite <- Hs. split; [done|].
  split; [apply sort_reverse_sorted|].
  split; [intros c'; apply ties_sort_reverse|].
  split; [apply prediction_items_confidence|]. done.
Qed.

Lemma response_sorted_stable_top_witness :
  [1 # 4; 1 # 2; 1 # 4]%Q <> [] /\
  exists r top rest,
    classify_response "banana" [1 # 4; 1 # 2; 1 # 4]%Q = Ok r /\
    success r = true /\
    StronglySorted (desc confidence) (all_predictions r) /\
    (forall c,
       ties confidence c (all_predictions r)
       = ties confidence c
           (prediction_items (dict_get class_mappings "banana" ∅)
              [1 # 4; 1 # 2; 1 # 4]%Q)) /\
    map confidence (prediction_items (dict_get class_mappings "banana" ∅)
                      [1 # 4; 1 # 2; 1 # 4]%Q)
    = [1 # 4; 1 # 2; 1 # 4]%Q /\
    all_predictions r = top :: rest /\
    predicted_class r = class_name top /\
    predicted_label r = class_label top /\
    top_confidence r = confidence top.
Proof.
  split; [discriminate|].
  apply (response_sorted_stable_top "banana" [1 # 4; 1 # 2; 1 # 4]%Q).
  discriminate.
Defined.

(** ** The pipeline *)

Lemma byte_value_range b : (0 <= byte_value b / 255 /\ byte_value b / 255 <= 1)%Q.
Proof.
  pose proof (Byte.to_N_bounded b) as Hb.
  unfold byte_value. split.
  - apply Qle_shift_div_l; [reflexivity|].
    unfold Qle; simpl. lia.
  - apply Qle_shift_div_r; [reflexivity|].
    unfold Qle; simpl. lia.
Qed.

Section PipelineFacts.
Variable TF_AVAILABLE : bool.
Variable PILImage : Type.
Variable b64decode : string -> outcome (list Byte.byte).
Variable Image_open : list Byte.byte -> outcome PILImage.
Variable convert_RGB : PILImage -> outcome RGBImage.
Variable LANCZOS : RGBImage -> nat * nat -> nat -> nat -> pixel.

#[local] Abbreviation preprocess_image := (preprocess_image PILImage convert_RGB LANCZOS).
#[local] Abbreviation decode_base64_image := (decode_base64_image PILImage b64decode Image_open).
#[local] Abbreviation classify :=
  (classify TF_AVAILABLE PILImage b64decode Image_open convert_RGB LANCZOS).
#[local] Abbreviation classify_produce :=
  (classify_produce TF_AVAILABLE PILImage b64decode Image_open convert_RGB LANCZOS).

Lemma np_array_lookup im y x :
  (y < rgb_height im)%nat -> (x < rgb_width im)%nat ->
  (row ← np_array im !! y; row !! x)
  = Some (let '(r, g, b) := getpixel im x y in
          [byte_value r; byte_value g; byte_value b]).
Proof.
  intros Hy Hx. unfold np_array.
  rewrite list_lookup_fmap, lookup_seq_lt by done. simpl.
  by rewrite list_lookup_fmap, lookup_seq_lt by done.
Qed.

Lemma scaled_array_shape (im : RGBImage) :
  let a := map (map (map (fun v => v / 255)%Q)) (np_array im) in
  length a = rgb_height im /\
  Forall (fun row => length row = rgb_width im /\
                     Forall (fun px => length px = 3%nat) row) a.
Proof.
  unfold np_array. cbv zeta. rewrite !length_map, length_seq. split; [done|].
  rewrite Forall_fmap, Forall_fmap. apply Forall_forall. intros y _.
  unfold compose. rewrite !length_map, length_seq. split; [done|].
  rewrite Forall_fmap, Forall_fmap. apply Forall_forall. intros x _.
  unfold compose. by destruct (getpixel im x y) as [[r g] b].
Qed.

Lemma scaled_array_range (im : RGBImage) :
  Forall (Forall (Forall (fun v => 0 <= v /\ v <= 1)%Q))
    (map (map (map (fun v => v / 255)%Q)) (np_array im)).
Proof.
  unfold np_array.
  rewrite Forall_fmap, Forall_fmap. apply Forall_forall. intros y _.
  unfold compose.
  rewrite Forall_fmap, Forall_fmap. apply Forall_forall. intros x _.
  unfold compose. destruct (getpixel im x y) as [[r g] b].
  repeat constructor; apply byte_value_range.
Qed.

(** C8: for every decoded image whose pixel data PIL can load,
    [preprocess_image] returns a tensor of shape (1, 224, 224, 3) whose
    every element lies in [0, 1]; its entry at row [y], column [x] of
    the single batch element holds the three channel values (integers
    from 0 to 255), each divided by 255, of the pixel that the image,
    converted to RGB and resized to 224 x 224, has there. *)
Theorem preprocess_image_shape_range (image : PILImage) (rgb : RGBImage) :
  convert_RGB image = Returns rgb ->
  exists t,
    preprocess_image image = Ok t /\
    has_shape 1 224 224 3 t /\
    all_elements (fun v => 0 <= v /\ v <= 1)%Q t /\
    forall x y, (x < 224)%nat -> (y < 224)%nat ->
      tensor_pixel t y x
      = Some (let '(r, g, b) := LANCZOS rgb (224%nat, 224%nat) x y in
              [inject_Z (Z.of_N (Byte.to_N r)) / 255;
               inject_Z (Z.of_N (Byte.to_N g)) / 255;
               inject_Z (Z.of_N (Byte.to_N b)) / 255]%Q).
Proof.
  intros Hload. unfold preprocess_image. rewrite Hload. cbv zeta.
  set (im := resize LANCZOS MODEL_INPUT_SIZE rgb).
  eexists. split; [reflexivity|].
  split; [|split].
  - split; [done|]. constructor; [|constructor].
    exact (scaled_array_shape im).
  - constructor; [|constructor]. exact (scaled_array_range im).
  - intros x y Hx Hy. unfold tensor_pixel.
    change ([?a] !! 0%nat) with (Some a).
    pose proof (np_array_lookup im y x Hy Hx) as Hl.
    change (getpixel im x y)
      with (LANCZOS rgb (224%nat, 224%nat) x y) in Hl.
    cbn [mbind option_bind]. rewrite list_lookup_fmap.
    destruct (np_array im !! y) as [row|]; [|done].
    cbn [mbind option_bind fmap option_fmap option_map] in Hl |- *.
    rewrite list_lookup_fmap, Hl. cbn [fmap option_fmap option_map].
    by destruct (LANCZOS rgb (224%nat, 224%nat) x y) as [[r g] b].
Qed.

Lemma classify_after_load fs g image_base64 pt self :
  classify fs g image_base64 pt self
  = let self' := (load_model TF_AVAILABLE fs pt self).2 in
    (self',
     im ← decode_base64_image image_base64;
     input_data ← preprocess_image im;
     predictions ← inference TF_AVAILABLE g pt (models self' !! pt) input_data;
     classify_response pt predictions).
Proof.
  unfold classify.
  pose proof (load_model_True TF_AVAILABLE fs pt self) as Ht.
  destruct (load_model TF_AVAILABLE fs pt self) as [loaded self'].
  cbn in Ht. subst loaded. reflexivity.
Qed.

Lemma decode_base64_image_eq s :
  decode_base64_image s
  = match b64decode (data_url_payload s) with
    | Fails msg => Raise (Exn BinasciiError msg)
    | Returns image_data =>
        match Image_open image_data with
        | Fails msg => Raise (Exn UnidentifiedImageError msg)
        | Returns im => Ok im
        end
    end.
Proof.
  unfold decode_base64_image.
  by rewrite b64_payload_eq.
Qed.

Lemma mock_predict_nonempty g pt :
  rng_ok g ->
  exists c v, _mock_predict g pt = Ok (c :: v) /\
              length (c :: v) = size (dict_get class_mappings pt AVOCADO_CLASSES).
Proof.
  intros Hg. destruct (mock_predict_distribution g pt Hg) as (v & Hv & Hl & _).
  destruct v as [|c v].
  - destruct (mock_num_classes pt) as [Hn|Hn]; rewrite Hn in Hl; done.
  - by exists c, v.
Qed.

Lemma classify_vector_success fs g image_base64 pt self im input_data c v :
  decode_base64_image image_base64 = Ok im ->
  preprocess_image im = Ok input_data ->
  inference TF_AVAILABLE g pt
    (models (load_model TF_AVAILABLE fs pt self).2 !! pt) input_data
  = Ok (c :: v) ->
  exists r, (classify fs g image_base64 pt self).2 = Ok r /\
            success r = true /\
            all_predictions r
            = sort_reverse confidence
                (prediction_items (dict_get class_mappings pt ∅) (c :: v)).
Proof.
  intros Hd Hp Hi. rewrite classify_after_load. cbn [snd].
  rewrite Hd. cbn [mbind result_bind]. rewrite Hp. cbn [mbind result_bind].
  rewrite Hi. cbn [mbind result_bind].
  destruct (classify_response_ok pt c v) as (top & rest & Hs & Hr).
  eexists. split; [exact Hr|]. by rewrite Hs.
Qed.

Lemma inference_mock g pt model input_data :
  model = Some Mock \/ TF_AVAILABLE = false ->
  is_Some model ->
  inference TF_AVAILABLE g pt model input_data = _mock_predict g pt.
Proof.
  intros Hm [h ->]. destruct h as [|m]; [done|].
  destruct Hm as [Hm|Hm]; [done|]. unfold inference. by rewrite Hm.
Qed.

(** C4: when [load_model] gets as far as loading an artifact (mock mode
    off, nothing cached for the produce type, TensorFlow available, one
    of the two conventional paths exists) and the load raises, the call
    still returns [True] and caches the mock marker; any later
    [classify] for that produce type whose image decodes and whose
    pixel data loads returns a result with [success = true], whatever
    the filesystem then holds. *)
Theorem load_failure_degrades_to_mock fs pt self p :
  use_mock self = false ->
  models self !! pt = None ->
  TF_AVAILABLE = true ->
  model_path fs self pt = Some p ->
  keras_load_model fs p = None ->
  (load_model TF_AVAILABLE fs pt self).1 = true /\
  models (load_model TF_AVAILABLE fs pt self).2 !! pt = Some Mock /\
  forall fs' g image_base64 im input_data,
    rng_ok g ->
    decode_base64_image image_base64 = Ok im ->
    preprocess_image im = Ok input_data ->
    exists r,
      (classify fs' g image_base64 pt (load_model TF_AVAILABLE fs pt self).2).2
      = Ok r /\ success r = true.
Proof.
  intros Hm Hc Htf Hp Hl.
  assert (Hload : load_model TF_AVAILABLE fs pt self = (true, set_model pt Mock self)).
  { unfold load_model. rewrite Hm, Htf. cbn [negb].
    rewrite decide_False by (rewrite Hc; by intros [? ?]).
    unfold model_path in Hp. cbv zeta in Hp |- *. rewrite Hp, Hl. done. }
  rewrite Hload. cbn [fst snd].
  split; [done|]. split; [apply lookup_set_model|].
  intros fs' g image_base64 im input_data Hg Hd Hpre.
  destruct (mock_predict_nonempty g pt Hg) as (c & v & Hv & _).
  destruct (classify_vector_success fs' g image_base64 pt (set_model pt Mock self)
              im input_data c v Hd Hpre) as (r & Hr & Hs & _).
  - rewrite inference_mock; [done | | apply load_model_cached].
    left.
    unfold load_model. cbn [use_mock set_model]. rewrite Hm.
    rewrite decide_True by (rewrite lookup_set_model; eauto).
    apply lookup_set_model.
  - eauto.
Qed.

(** C10: for a produce type other than "avocado" and "banana", a
    [classify] call on the mock path (the handle found after
    [load_model] is the mock marker, or TensorFlow is unavailable) whose
    image decodes and whose pixel data loads returns a result with
    [success = true] and exactly
    five prediction items, whose class names are, up to the order the
    sort gives them, class_0, class_1, class_2, class_3, class_4. *)
Theorem unknown_produce_type_placeholders
    fs g image_base64 pt self im input_data :
  pt <> "avocado" -> pt <> "banana" ->
  rng_ok g ->
  decode_base64_image image_base64 = Ok im ->
  preprocess_image im = Ok input_data ->
  models (load_model TF_AVAILABLE fs pt self).2 !! pt = Some Mock
  \/ TF_AVAILABLE = false ->
  exists r,
    (classify fs g image_base64 pt self).2 = Ok r /\
    success r = true /\
    length (all_predictions r) = 5%nat /\
    map class_name (all_predictions r)
    ≡ₚ ["class_0"; "class_1"; "class_2"; "class_3"; "class_4"].
Proof.
  intros Ha Hb Hg Hd Hp Hmock.
  destruct (mock_predict_nonempty g pt Hg) as (c & v & Hv & Hlen).
  rewrite mock_table, decide_False in Hlen by done.
  destruct (classify_vector_success fs g image_base64 pt self im input_data
              c v Hd Hp) as (r & Hr & Hs & Hall).
  { rewrite inference_mock; [done | done | apply load_model_cached]. }
  exists r. split; [done|]. split; [done|].
  rewrite Hall, label_table by done.
  split.
  - by rewrite sort_reverse_length, prediction_items_length.
  - rewrite sort_reverse_perm.
    destruct v as [|c1 [|c2 [|c3 [|c4 [|c5 v]]]]]; try done.
Qed.


Lemma prediction_items_labelled pt (v : list Q) :
  prediction_items (dict_get class_mappings pt ∅) v
  = imap (fun i c =>
            match class_mappings !! pt ≫= (fun table => table !! i) with
            | Some info => MkItem (name info) (label info) c
            | None => MkItem ("class_" ++ pretty i) ("Class " ++ pretty i) c
            end) v.
Proof.
  unfold prediction_items. apply imap_ext. intros i x _. unfold dict_get.
  destruct (class_mappings !! pt) as [table|]; cbn [mbind option_bind].
  - by destruct (table !! i).
  - by rewrite lookup_empty.
Qed.

(** C3, as the code has it: when the handle is a real model, the image
    decodes and its pixel data loads, and the model's first output row
    [v] is non-empty, [classify] returns a result with [success = true]
    that holds exactly one prediction item per element of [v]: up to
    the order of the sort, the item of index [i] carries the confidence
    [v[i]] and the name and label that the class table of the produce
    type has for [i], or class_<i> and Class <i> where that table has
    no entry for [i] or the produce type has no table. No check
    compares the length of [v] with the class table. *)
Theorem real_output_any_length_succeeds
    fs g image_base64 pt self im input_data m v rest :
  TF_AVAILABLE = true ->
  models (load_model TF_AVAILABLE fs pt self).2 !! pt = Some (Real m) ->
  decode_base64_image image_base64 = Ok im ->
  preprocess_image im = Ok input_data ->
  m input_data = v :: rest ->
  v <> [] ->
  exists r,
    (classify fs g image_base64 pt self).2 = Ok r /\
    success r = true /\
    length (all_predictions r) = length v /\
    all_predictions r
    ≡ₚ imap (fun i c =>
               match class_mappings !! pt ≫= (fun table => table !! i) with
               | Some info => MkItem (name info) (label info) c
               | None => MkItem ("class_" ++ pretty i) ("Class " ++ pretty i) c
               end) v.
Proof.
  intros Htf Hreal Hd Hp Hout Hne.
  destruct v as [|c v]; [done|].
  destruct (classify_vector_success fs g image_base64 pt self im input_data
              c v Hd Hp) as (r & Hr & Hs & Hall).
  { rewrite Hreal. unfold inference. rewrite Htf. cbn [negb]. by rewrite Hout. }
  exists r. split; [done|]. split; [done|]. rewrite Hall.
  split; [by rewrite sort_reverse_length, prediction_items_length|].
  rewrite sort_reverse_perm. by rewrite prediction_items_labelled.
Qed.

(** C5, as the code has it: when [base64.b64decode] rejects the payload,
    the endpoint answers 400 with the decoder's message as detail; when
    the payload decodes to bytes that [Image.open] does not recognise,
    the endpoint answers 500 with the non-empty detail
    "Classification failed: " followed by the library's message. *)
Theorem decode_failure_status fs g request self :
  (forall msg,
     b64decode (data_url_payload (image request)) = Fails msg ->
     (classify_produce fs g request self).2 = HTTPException 400 msg) /\
  (forall image_data msg,
     b64decode (data_url_payload (image request)) = Returns image_data ->
     Image_open image_data = Fails msg ->
     (classify_produce fs g request self).2
     = HTTPException 500 ("Classification failed: " ++ msg) /\
     ("Classification failed: " ++ msg)%string <> EmptyString).
Proof.
  unfold classify_produce.
  rewrite classify_after_load. cbv zeta. cbn [snd].
  rewrite decode_base64_image_eq.
  split.
  - intros msg Hb. by rewrite Hb.
  - intros image_data msg Hb Hi. rewrite Hb, Hi. done.
Qed.

Lemma decode_not_ValueError s : ~ raises (decode_base64_image s) ValueError.
Proof.
  rewrite decode_base64_image_eq. intros [msg Hr].
  destruct (b64decode (data_url_payload s)) as [data|]; [|done].
  by destruct (Image_open data).
Qed.

Lemma preprocess_not_ValueError im : ~ raises (preprocess_image im) ValueError.
Proof.
  unfold preprocess_image. intros [msg Hr].
  by destruct (convert_RGB im).
Qed.

Lemma getitem_not_ValueError {A} (l : list A) i : ~ raises (getitem l i) ValueError.
Proof. unfold getitem. intros [msg Hr]. by destruct (l !! i). Qed.

Lemma mock_predict_not_ValueError g pt : ~ raises (_mock_predict g pt) ValueError.
Proof.
  unfold _mock_predict. intros [msg Hr].
  destruct (Z.ltb_spec
              (Z.of_nat (size (dict_get class_mappings pt AVOCADO_CLASSES)) - 1) 0)
    as [Hlt|_].
  - destruct (mock_num_classes pt) as [Hn|Hn]; rewrite Hn in Hlt; lia.
  - unfold setitem in Hr.
    repeat match type of Hr with
           | context [if ?b then _ else _] => destruct b
           end; done.
Qed.

Lemma inference_not_ValueError g pt model input_data :
  ~ raises (inference TF_AVAILABLE g pt model input_data) ValueError.
Proof.
  unfold inference.
  destruct model as [[|m]|], TF_AVAILABLE; cbn [negb];
    auto using mock_predict_not_ValueError, getitem_not_ValueError.
  by intros [msg Hr].
Qed.

Lemma raises_bind {A B} (r : result A) (k : A -> result B) c :
  raises (r ≫= k) c -> raises r c \/ exists a, r = Ok a /\ raises (k a) c.
Proof.
  intros [msg Hr]. destruct r as [a|e]; cbn in Hr.
  - right. exists a. split; [done|]. by exists msg.
  - left. exists msg. congruence.
Qed.

Lemma classify_response_not_ValueError pt v :
  ~ raises (classify_response pt v) ValueError.
Proof.
  unfold classify_response. intros Hr.
  apply raises_bind in Hr as [Hr|(top & _ & [msg Hr])]; [|done].
  by apply getitem_not_ValueError in Hr.
Qed.

Lemma classify_not_ValueError fs g image_base64 pt self :
  ~ raises (classify fs g image_base64 pt self).2 ValueError.
Proof.
  rewrite classify_after_load. cbn [snd]. intros Hr.
  apply raises_bind in Hr as [Hr|(im & _ & Hr)];
    [by apply decode_not_ValueError in Hr|].
  apply raises_bind in Hr as [Hr|(input_data & _ & Hr)];
    [by apply preprocess_not_ValueError in Hr|].
  apply raises_bind in Hr as [Hr|(v & _ & Hr)].
  - by apply inference_not_ValueError in Hr.
  - by apply classify_response_not_ValueError in Hr.
Qed.

(** C9: [load_model] returns [True] for every produce type, filesystem
    and classifier state, and [classify] never raises the ValueError
    "Model not available for produce type: ..." of the branch taken
    when [load_model] returns [False]. *)
Theorem load_model_always_True fs g image_base64 pt self :
  (load_model TF_AVAILABLE fs pt self).1 = true /\
  (classify fs g image_base64 pt self).2
  <> Raise (Exn ValueError ("Model not available for produce type: " ++ pt)).
Proof.
  split; [apply load_model_True|].
  intros Hr. apply (classify_not_ValueError fs g image_base64 pt self).
  eexists. exact Hr.
Qed.

End PipelineFacts.

(** ** The registry across calls *)

(** C7: [load_model] is idempotent per produce type. Called again right
    after a call for the same produce type, on any classifier state and
    whatever the filesystem holds by then, it returns [True] and leaves
    the classifier as the first call left it. And in any process
    history (a classifier fresh from [__init__], any [load_model] calls
    before the first call and between the two calls, for any produce
    types and filesystems), the produce type is cached after the first
    call and the handle cached after the second call is the one cached
    after the first. *)
Theorem load_model_idempotent (TF_AVAILABLE : bool) :
  (forall fs fs' pt self,
     load_model TF_AVAILABLE fs' pt (load_model TF_AVAILABLE fs pt self).2
     = (true, (load_model TF_AVAILABLE fs pt self).2)) /\
  (forall dir mock before fs pt between fs',
     let first :=
       (load_model TF_AVAILABLE fs pt
          (load_models TF_AVAILABLE before (init dir mock))).2 in
     let second :=
       (load_model TF_AVAILABLE fs' pt
          (load_models TF_AVAILABLE between first)).2 in
     is_Some (models first !! pt) /\
     models second !! pt = models first !! pt).
Proof.
  split; [intros; apply load_model_again|].
  intros dir mock before fs pt between fs' first second.
  assert (Hinv : registry_inv TF_AVAILABLE first).
  { apply registry_inv_load_model, registry_inv_load_models, registry_inv_init. }
  destruct (load_model_cached TF_AVAILABLE fs pt
              (load_models TF_AVAILABLE before (init dir mock))) as [h Hh].
  fold first in Hh. split; [by exists h|].
  rewrite Hh. subst second.
  apply load_model_keeps; [by apply registry_inv_load_models|].
  by apply load_models_keeps.
Qed.

(** ** The pipeline on concrete requests *)

Lemma half_draws_ok : rng_ok half_draws.
Proof.
  repeat split; cbn; try done; try lia; lra.
Qed.

(** C1, at a failing input: with draws the libraries can produce (five
    NumPy samples equal to 1/2, dominant index 0, dominant value 3/4)
    the vector returned by [_mock_predict] for "avocado" sums to 1 but
    every one of its values is below 0.70, so none lies in
    [0.70, 0.95]. *)
Theorem mock_predict_dominant_outside_range :
  rng_ok half_draws /\
  exists v,
    _mock_predict half_draws "avocado" = Ok v /\
    (sum v == 1)%Q /\
    Forall (fun p => p < 7 # 10)%Q v.
Proof.
  split; [exact half_draws_ok|].
  eexists. split; [vm_compute; reflexivity|].
  split; [reflexivity|].
  repeat constructor.
Qed.

(** C2, as the code has it: an input without a comma is decoded whole;
    an input with exactly one comma is decoded from behind that comma
    to its end; an input with two or more commas is decoded from behind
    its first comma up to its second comma, and what follows the second
    comma is dropped. *)
Theorem payload_between_first_two_commas (pre mid post : string) :
  contains "," pre = false ->
  contains "," mid = false ->
  b64_payload pre = Ok pre /\
  b64_payload (pre ++ "," ++ mid)%string = Ok mid /\
  b64_payload (pre ++ "," ++ mid ++ "," ++ post)%string = Ok mid.
Proof.
  intros Hpre Hmid. rewrite !b64_payload_eq. unfold data_url_payload.
  split; [|split].
  - destruct (after_first "," pre) eqn:Ha; [|done].
    assert (contains "," pre = true) by (apply contains_after_first; eauto).
    congruence.
  - change ("," ++ mid)%string with (String "," mid).
    rewrite after_first_app by done. by rewrite before_first_id.
  - change ("," ++ mid ++ "," ++ post)%string
      with (String "," (mid ++ String "," post)%string).
    rewrite after_first_app by done. by rewrite before_first_app.
Qed.

Lemma payload_between_first_two_commas_witness :
  b64_payload "iVBORw0KGgo=" = Ok "iVBORw0KGgo=" /\
  b64_payload "data:image/png;base64,iVBORw0KGgo=" = Ok "iVBORw0KGgo=" /\
  b64_payload "data:image/png;base64,iVBORw0KGgo=,AAAA" = Ok "iVBORw0KGgo=".
Proof.
  split; [|split].
  - apply (payload_between_first_two_commas
             "iVBORw0KGgo=" EmptyString EmptyString); reflexivity.
  - apply (payload_between_first_two_commas
             "data:image/png;base64" "iVBORw0KGgo=" EmptyString); reflexivity.
  - apply (payload_between_first_two_commas
             "data:image/png;base64" "iVBORw0KGgo=" "AAAA"); reflexivity.
Defined.

(** C2 fails as stated: the payload is not always the whole text behind
    the first comma. *)
Lemma payload_not_rest_after_first_comma :
  ~ (forall s rest,
       after_first "," s = Some rest -> b64_payload s = Ok rest).
Proof.
  intros Hclaim.
  specialize (Hclaim "data:image/png;base64,iVBORw0KGgo=,AAAA"
                "iVBORw0KGgo=,AAAA" eq_refl).
  vm_compute in Hclaim. discriminate Hclaim.
Qed.

(** The pipeline run against the test double. *)
#[local] Abbreviation fake_classify :=
  (classify true fake_image fake_b64decode fake_Image_open
     fake_convert_RGB fake_LANCZOS).
#[local] Abbreviation fake_classify_produce :=
  (classify_produce true fake_image fake_b64decode fake_Image_open
     fake_convert_RGB fake_LANCZOS).
#[local] Abbreviation fake_decode :=
  (decode_base64_image fake_image fake_b64decode fake_Image_open).
#[local] Abbreviation fake_preprocess :=
  (preprocess_image fake_image fake_convert_RGB fake_LANCZOS).

Lemma fake_decode_pixel_png :
  fake_decode pixel_png_b64 = Ok (Complete one_pixel).
Proof. vm_compute; reflexivity. Qed.

(** C3 fails as stated: on the one-pixel PNG a real avocado model with
    two outputs, against a class table of five entries, yields a
    success result with two items, and the endpoint answers 200. *)
Lemma length_mismatch_returns_success :
  models (load_model true avocado_h5 "avocado" (init "models" false)).2
    !! "avocado" = Some (Real two_output_model) /\
  size AVOCADO_CLASSES = 5%nat /\
  exists r,
    (fake_classify avocado_h5 half_draws pixel_png_b64 "avocado"
       (init "models" false)).2 = Ok r /\
    (fake_classify_produce avocado_h5 half_draws
       (MkRequest pixel_png_b64 avocado) (init "models" false)).2 = Http200 r /\
    success r = true /\
    map class_name (all_predictions r) = ["underripe"; "breaking"].
Proof.
  split; [vm_compute; reflexivity|]. split; [reflexivity|].
  eexists. split; [vm_compute; reflexivity|].
  split; [vm_compute; reflexivity|]. split; reflexivity.
Qed.

Lemma real_output_any_length_succeeds_witness :
  exists r,
    (fake_classify avocado_h5 half_draws pixel_png_b64 "avocado"
       (init "models" false)).2 = Ok r /\
    success r = true /\
    length (all_predictions r) = 2%nat /\
    all_predictions r
    ≡ₚ [MkItem "underripe" "Underripe" (6 # 10);
        MkItem "breaking" "Breaking" (4 # 10)].
Proof.
  eapply (real_output_any_length_succeeds true fake_image fake_b64decode
            fake_Image_open fake_convert_RGB fake_LANCZOS avocado_h5 half_draws
            pixel_png_b64 "avocado" (init "models" false) (Complete one_pixel)
            _ two_output_model [6 # 10; 4 # 10]%Q []).
  - reflexivity.
  - vm_compute; reflexivity.
  - exact fake_decode_pixel_png.
  - reflexivity.
  - reflexivity.
  - discriminate.
Defined.

Lemma load_failure_degrades_to_mock_witness :
  model_path corrupt_h5 (init "models" false) "avocado"
  = Some ["models"; "avocado"; "keras_model.h5"] /\
  keras_load_model corrupt_h5 ["models"; "avocado"; "keras_model.h5"] = None /\
  (load_model true corrupt_h5 "avocado" (init "models" false)).1 = true /\
  models (load_model true corrupt_h5 "avocado" (init "models" false)).2
    !! "avocado" = Some Mock /\
  exists r,
    (fake_classify no_models half_draws pixel_png_b64 "avocado"
       (load_model true corrupt_h5 "avocado" (init "models" false)).2).2 = Ok r /\
    success r = true.
Proof.
  split; [reflexivity|]. split; [reflexivity|].
  destruct (load_failure_degrades_to_mock true fake_image fake_b64decode
              fake_Image_open fake_convert_RGB fake_LANCZOS corrupt_h5
              "avocado" (init "models" false)
              ["models"; "avocado"; "keras_model.h5"])
    as (Hret & Hcache & Hnext); try reflexivity.
  split; [exact Hret|]. split; [exact Hcache|].
  eapply (Hnext no_models half_draws pixel_png_b64 (Complete one_pixel)).
  - exact half_draws_ok.
  - exact fake_decode_pixel_png.
  - reflexivity.
Defined.

(** C5 fails as stated: the payload "aGVsbG8=" is well-formed base64 of
    bytes that are no image, and the endpoint answers 500. *)
Lemma unrecognized_image_is_500 :
  fake_b64decode (data_url_payload "aGVsbG8=") = Returns hello_bytes /\
  fake_Image_open hello_bytes = Fails "cannot identify image file" /\
  (fake_classify_produce no_models half_draws
     (MkRequest "aGVsbG8=" avocado) (init "models" false)).2
  = HTTPException 500 "Classification failed: cannot identify image file".
Proof. repeat split; vm_compute; reflexivity. Qed.

Lemma decode_failure_status_witness :
  (fake_classify_produce no_models half_draws
     (MkRequest "not-base64!!" avocado) (init "models" false)).2
  = HTTPException 400 "Incorrect padding" /\
  (fake_classify_produce no_models half_draws
     (MkRequest "aGVsbG8=" avocado) (init "models" false)).2
  = HTTPException 500 "Classification failed: cannot identify image file".
Proof.
  split.
  - apply (decode_failure_status true fake_image fake_b64decode fake_Image_open
             fake_convert_RGB fake_LANCZOS no_models half_draws
             (MkRequest "not-base64!!" avocado) (init "models" false)).
    reflexivity.
  - apply (decode_failure_status true fake_image fake_b64decode fake_Image_open
             fake_convert_RGB fake_LANCZOS no_models half_draws
             (MkRequest "aGVsbG8=" avocado) (init "models" false))
      with (image_data := hello_bytes); reflexivity.
Defined.

Lemma preprocess_image_shape_range_witness :
  exists t,
    fake_preprocess (Complete one_pixel) = Ok t /\
    tensor_pixel t 223 0
    = Some [inject_Z 255 / 255; inject_Z 128 / 255; inject_Z 0 / 255]%Q.
Proof.
  destruct (preprocess_image_shape_range fake_image fake_convert_RGB
              fake_LANCZOS (Complete one_pixel) one_pixel eq_refl)
    as (t & Ht & _ & _ & Hpx).
  exists t. split; [exact Ht|].
  exact (Hpx 0%nat 223%nat ltac:(lia) ltac:(lia)).
Defined.

Lemma unknown_produce_type_placeholders_witness :
  exists r,
    (fake_classify no_models half_draws pixel_png_b64 "kiwi"
       (init "models" false)).2 = Ok r /\
    success r = true /\
    length (all_predictions r) = 5%nat /\
    map class_name (all_predictions r)
    ≡ₚ ["class_0"; "class_1"; "class_2"; "class_3"; "class_4"].
Proof.
  eapply (unknown_produce_type_placeholders true fake_image fake_b64decode
            fake_Image_open fake_convert_RGB fake_LANCZOS no_models half_draws
            pixel_png_b64 "kiwi" (init "models" false) (Complete one_pixel)).
  - discriminate.
  - discriminate.
  - exact half_draws_ok.
  - exact fake_decode_pixel_png.
  - reflexivity.
  - left. vm_compute; reflexivity.
Defined.

(** * Further facts *)

(** ** The registry *)

(** X1: what [load_model] writes: the models directory stays; the flag
    [use_mock] stays as it was unless mock mode was off, the produce
    type was not cached and TensorFlow is missing, in which case it
    becomes true; and the cache entry of every produce type other than
    the requested one, present or absent, is what it was. *)
Theorem load_model_frame TF_AVAILABLE fs pt self :
  models_dir (load_model TF_AVAILABLE fs pt self).2 = models_dir self /\
  use_mock (load_model TF_AVAILABLE fs pt self).2
  = (use_mock self
     || (negb TF_AVAILABLE && bool_decide (models self !! pt = None))) /\
  forall pt', pt' <> pt ->
    models (load_model TF_AVAILABLE fs pt self).2 !! pt' = models self !! pt'.
Proof.
  split; [|split].
  - load_cases; reflexivity.
  - destruct (models self !! pt) as [h|] eqn:Hc.
    + rewrite bool_decide_eq_false_2 by done. rewrite andb_false_r, orb_false_r.
      unfold load_model. destruct (use_mock self) eqn:Hm; [done|].
      rewrite !decide_True by (rewrite Hc; eauto). done.
    + rewrite bool_decide_eq_true_2 by done. rewrite andb_true_r.
      unfold load_model. destruct (use_mock self) eqn:Hm; [done|].
      rewrite !decide_False by (rewrite Hc; by intros [? ?]).
      destruct TF_AVAILABLE; cbn [negb orb]; [|done]. cbv zeta.
      destruct (path_exists fs _); [by destruct (keras_load_model fs _)|].
      destruct (path_exists fs _); [by destruct (keras_load_model fs _)|done].
  - intros pt' Hne. load_cases; try reflexivity;
      by rewrite lookup_set_model_ne.
Qed.

Lemma load_model_uncached TF_AVAILABLE fs pt self :
  models self !! pt = None ->
  load_model TF_AVAILABLE fs pt self
  = (true,
     if use_mock self then set_model pt Mock self
     else if negb TF_AVAILABLE then set_model pt Mock (set_use_mock true self)
     else match model_path fs self pt with
          | Some p =>
              match keras_load_model fs p with
              | Some m => set_model pt (Real m) self
              | None => set_model pt Mock self
              end
          | None => set_model pt Mock self
          end).
Proof.
  intros Hc. unfold load_model, model_path.
  destruct (use_mock self); [done|].
  rewrite decide_False by (rewrite Hc; by intros [? ?]).
  destruct (negb TF_AVAILABLE); [done|]. cbv zeta.
  destruct (path_exists fs _); [by destruct (keras_load_model fs _)|].
  destruct (path_exists fs _); [by destruct (keras_load_model fs _)|done].
Qed.

(** X2: for a produce type that is not cached yet, the handle cached by
    [load_model] is the real model [m] exactly when mock mode is off,
    TensorFlow is available, the path [models_dir / produce_type /
    "keras_model.h5"] or else [models_dir / produce_type /
    "saved_model"] exists and loading the first existing one yields
    [m]; it is the mock
    marker exactly when mock mode is on, or TensorFlow is missing, or
    neither path exists, or the load of the existing path raises. *)
Theorem load_model_real_iff TF_AVAILABLE fs pt self :
  models self !! pt = None ->
  (forall m,
     models (load_model TF_AVAILABLE fs pt self).2 !! pt = Some (Real m)
     <-> use_mock self = false /\ TF_AVAILABLE = true /\
         exists p, model_path fs self pt = Some p /\
                   keras_load_model fs p = Some m) /\
  (models (load_model TF_AVAILABLE fs pt self).2 !! pt = Some Mock
   <-> use_mock self = true \/ TF_AVAILABLE = false \/
       model_path fs self pt = None \/
       exists p, model_path fs self pt = Some p /\
                 keras_load_model fs p = None).
Proof.
  intros Hc. rewrite (load_model_uncached _ _ _ _ Hc). cbn [snd].
  destruct (use_mock self), TF_AVAILABLE; cbn [negb];
    try (rewrite lookup_set_model; split; [intros m|]; split;
         [done | intros (? & ? & ?); done | auto | done]).
  destruct (model_path fs self pt) as [p|].
  - destruct (keras_load_model fs p) as [m'|] eqn:Hl; rewrite lookup_set_model.
    + split; [intros m|]; split.
      * intros [= ->]. eauto 6.
      * intros (_ & _ & p' & [= <-] & Hm). congruence.
      * done.
      * intros [?|[?|[?|(p' & [= <-] & ?)]]]; congruence.
    + split; [intros m|]; split.
      * done.
      * intros (_ & _ & p' & [= <-] & Hm). congruence.
      * eauto 6.
      * done.
  - rewrite lookup_set_model. split; [intros m|]; split.
    + done.
    + intros (_ & _ & p' & ? & _). done.
    + auto.
    + done.
Qed.

Lemma load_models_cons TF_AVAILABLE fs pt calls self :
  load_models TF_AVAILABLE ((fs, pt) :: calls) self
  = load_models TF_AVAILABLE calls (load_model TF_AVAILABLE fs pt self).2.
Proof. reflexivity. Qed.

Lemma load_models_app TF_AVAILABLE calls calls' self :
  load_models TF_AVAILABLE (calls ++ calls') self
  = load_models TF_AVAILABLE calls' (load_models TF_AVAILABLE calls self).
Proof. apply foldl_app. Qed.

Lemma load_model_models_dir TF_AVAILABLE fs pt self :
  models_dir (load_model TF_AVAILABLE fs pt self).2 = models_dir self.
Proof. load_cases; reflexivity. Qed.

Lemma load_models_models_dir TF_AVAILABLE calls self :
  models_dir (load_models TF_AVAILABLE calls self) = models_dir self.
Proof.
  revert self. induction calls as [|[fs pt] calls IH]; intros self; [done|].
  rewrite load_models_cons, IH. apply load_model_models_dir.
Qed.

Lemma load_model_use_mock TF_AVAILABLE fs pt self :
  (use_mock self = true -> use_mock (load_model TF_AVAILABLE fs pt self).2 = true) /\
  (TF_AVAILABLE = true ->
   use_mock (load_model TF_AVAILABLE fs pt self).2 = use_mock self).
Proof. split; load_cases; intros; done. Qed.

Lemma load_models_use_mock TF_AVAILABLE calls self :
  TF_AVAILABLE = true ->
  use_mock (load_models TF_AVAILABLE calls self) = use_mock self.
Proof.
  intros Htf. revert self.
  induction calls as [|[fs pt] calls IH]; intros self; [done|].
  rewrite load_models_cons, IH.
  by apply (load_model_use_mock TF_AVAILABLE fs pt self).
Qed.

(** X3: over any run of [load_model] calls the flag [use_mock] never
    goes back from true to false, and while TensorFlow is available it
    does not change at all. *)
Theorem use_mock_only_rises TF_AVAILABLE calls self :
  (use_mock self = true ->
   use_mock (load_models TF_AVAILABLE calls self) = true) /\
  (TF_AVAILABLE = true ->
   use_mock (load_models TF_AVAILABLE calls self) = use_mock self).
Proof.
  revert self. induction calls as [|[fs pt] calls IH]; intros self; [done|].
  rewrite load_models_cons.
  destruct (IH (load_model TF_AVAILABLE fs pt self).2) as [IH1 IH2].
  destruct (load_model_use_mock TF_AVAILABLE fs pt self) as [H1 H2].
  split.
  - intros Hm. by apply IH1, H1.
  - intros Htf. rewrite IH2 by done. by apply H2.
Qed.

(** ** The payload *)

Lemma before_first_no_sep sep s : contains sep (before_first sep s) = false.
Proof.
  induction s as [|a s IH]; simpl; [done|].
  destruct (Ascii.eqb a sep) eqn:Ha; [done|]. simpl. by rewrite Ha.
Qed.

Lemma data_url_payload_no_comma s : contains "," (data_url_payload s) = false.
Proof.
  unfold data_url_payload. destruct (after_first "," s) eqn:Ha.
  - apply before_first_no_sep.
  - apply not_true_is_false. intros Hc.
    apply contains_after_first in Hc as [? Hc]. congruence.
Qed.

(** X4: the index [1] into the split input never raises: for every
    input the decoder gets a payload, the payload holds no comma, and
    taking the payload of the payload gives it back. *)
Theorem payload_has_no_comma s :
  exists p, b64_payload s = Ok p /\
            contains "," p = false /\
            b64_payload p = Ok p.
Proof.
  exists (data_url_payload s). split; [apply b64_payload_eq|].
  pose proof (data_url_payload_no_comma s) as Hn. split; [done|].
  unfold b64_payload. by rewrite Hn.
Qed.

(** ** Mock predictions *)

(** X5: with draws in the ranges the random libraries promise,
    [_mock_predict] returns a vector of three entries for "banana" and
    of five for every other produce type, whose entries lie in [0, 1]
    and sum to 1. *)
Theorem mock_predict_is_distribution g pt :
  rng_ok g ->
  exists v,
    _mock_predict g pt = Ok v /\
    length v = (if decide (pt = "banana") then 3 else 5)%nat /\
    (sum v == 1)%Q /\
    Forall (fun p => 0 <= p /\ p <= 1)%Q v.
Proof.
  intros Hg. destruct (mock_predict_distribution g pt Hg) as (v & Hv & Hl & Hs & Hr).
  exists v. split; [done|]. split; [|done].
  rewrite Hl, mock_table. by case_decide.
Qed.

(** ** The response builder *)

(** X7: on an empty vector the response builder raises IndexError; on a
    non-empty one it returns a result for the produce type asked, whose
    [all_predictions] is a rearrangement of the items built in
    class-index order: one item per entry of the vector, and their
    confidences are the entries of the vector. *)
Theorem response_keeps_every_item pt (predictions : list Q) :
  (predictions = [] -> raises (classify_response pt predictions) IndexError) /\
  (predictions <> [] ->
   exists r,
     classify_response pt predictions = Ok r /\
     produce_type r = pt /\
     length (all_predictions r) = length predictions /\
     all_predictions r
     ≡ₚ prediction_items (dict_get class_mappings pt ∅) predictions /\
     map confidence (all_predictions r) ≡ₚ predictions).
Proof.
  split.
  - intros ->. by eexists.
  - intros Hne. destruct predictions as [|c v]; [done|].
    destruct (classify_response_ok pt c v) as (top & rest & Hs & Hr).
    eexists. split; [exact Hr|].
    cbn [produce_type all_predictions]. rewrite <- Hs.
    split; [done|].
    split; [by rewrite sort_reverse_length, prediction_items_length|].
    split; [apply sort_reverse_perm|].
    rewrite sort_reverse_perm. by rewrite prediction_items_confidence.
Qed.

Lemma filter_head_first {A} (f : A -> bool) l x xs :
  List.filter f l = x :: xs ->
  exists i, l !! i = Some x /\
            forall j y, (j < i)%nat -> l !! j = Some y -> f y = false.
Proof.
  induction l as [|a l IH]; [done|]. simpl.
  destruct (f a) eqn:Hfa.
  - intros [= -> _]. exists 0%nat. split; [done|]. intros; lia.
  - intros Hf. destruct (IH Hf) as (i & Hi & Hlt).
    exists (S i). split; [done|].
    intros [|j] y Hj Hy; simpl in Hy; [congruence|].
    apply (Hlt j); [lia|done].
Qed.

(** X8: the summary of a result is the first maximum of the vector: for
    the least index [i] whose entry [c] no other entry exceeds (every
    entry is at most [c], every earlier one is smaller), the top-level
    confidence is [c] and the predicted class and label are those of
    index [i], from the class table or the placeholder of [i]. *)
Theorem top_is_first_maximum pt (predictions : list Q) :
  predictions <> [] ->
  exists r i c,
    classify_response pt predictions = Ok r /\
    predictions !! i = Some c /\
    top_confidence r = c /\
    Forall (fun p => p <= c)%Q predictions /\
    (forall j p, (j < i)%nat -> predictions !! j = Some p -> (p < c)%Q) /\
    (let info := dict_get (dict_get class_mappings pt ∅) i
                   (ClassInfo ("class_" ++ pretty i) ("Class " ++ pretty i)) in
     predicted_class r = name info /\ predicted_label r = label info).
Proof.
  intros Hne. destruct predictions as [|c0 v]; [done|].
  set (tbl := dict_get class_mappings pt ∅).
  set (items := prediction_items tbl (c0 :: v)).
  destruct (classify_response_ok pt c0 v) as (top & rest & Hs & Hr).
  fold tbl items in Hs.
  pose proof (sort_reverse_sorted confidence items) as Hsorted.
  rewrite Hs in Hsorted. apply StronglySorted_inv in Hsorted as [_ Hrest].
  pose proof (ties_sort_reverse confidence (confidence top) items) as Hties.
  rewrite Hs in Hties. unfold ties in Hties. cbn [List.filter] in Hties.
  rewrite (proj2 (Qeq_bool_iff _ _) (Qeq_refl (confidence top))) in Hties.
  symmetry in Hties.
  apply filter_head_first in Hties as (i & Hi & Hbefore).
  assert (Hmax : forall it, it ∈ items -> (confidence it <= confidence top)%Q).
  { intros it Hit. rewrite <- (sort_reverse_perm confidence items), Hs in Hit.
    apply elem_of_cons in Hit as [->|Hit]; [apply Qle_refl|].
    rewrite Forall_forall in Hrest. by apply Hrest. }
  assert (Hlook : forall j it, items !! j = Some it ->
                   (c0 :: v) !! j = Some (confidence it)).
  { intros j it Hj.
    rewrite <- (prediction_items_confidence tbl (c0 :: v)).
    fold items. by rewrite list_lookup_fmap, Hj. }
  exists (MkResult true pt (class_name top) (class_label top) (confidence top)
            (top :: rest)), i, (confidence top).
  split; [exact Hr|]. split; [by apply Hlook|]. split; [done|].
  split; [|split].
  - rewrite <- (prediction_items_confidence tbl (c0 :: v)). fold items.
    apply Forall_fmap, Forall_forall. intros it Hit. by apply Hmax.
  - intros j p Hj Hp.
    destruct (lookup_lt_is_Some_2 items j) as [it Hit].
    { apply lookup_lt_Some in Hp.
      subst items. by rewrite prediction_items_length. }
    pose proof (Hlook j it Hit) as Hp'. rewrite Hp in Hp'. injection Hp' as ->.
    specialize (Hbefore j it Hj Hit). cbn in Hbefore.
    assert (Hm : (confidence it <= confidence top)%Q)
      by (apply Hmax; by eapply list_elem_of_lookup_2).
    apply Qle_lt_or_eq in Hm as [Hm|Hm]; [done|].
    apply Qeq_bool_iff in Hm. congruence.
  - cbn [predicted_class predicted_label].
    pose proof (Hlook i top Hi) as Hc.
    subst items. unfold prediction_items in Hi.
    rewrite list_lookup_imap, Hc in Hi. cbn in Hi.
    injection Hi as <-. done.
Qed.

(** ** The pipeline and the endpoint *)

Lemma load_model_cached_any_fs TF_AVAILABLE fs fs' pt self :
  is_Some (models self !! pt) ->
  load_model TF_AVAILABLE fs pt self = load_model TF_AVAILABLE fs' pt self.
Proof.
  intros Hc. unfold load_model.
  destruct (use_mock self); [done|]. by rewrite !decide_True by done.
Qed.

Lemma in_unit_interval_iff q : in_unit_interval q = true <-> (0 <= q /\ q <= 1)%Q.
Proof.
  unfold in_unit_interval. rewrite andb_true_iff, !Qle_bool_iff. done.
Qed.

Lemma literal_table p :
  dict_get class_mappings (literal_str p) ∅
  = match p with avocado => AVOCADO_CLASSES | banana => BANANA_CLASSES end.
Proof. by destruct p. Qed.

Lemma forallb_elem_false {A} (f : A -> bool) l x :
  x ∈ l -> f x = false -> forallb f l = false.
Proof.
  intros Hx Hf. apply not_true_is_false. intros Hall.
  rewrite forallb_forall in Hall. apply list_elem_of_In in Hx.
  specialize (Hall x Hx). congruence.
Qed.

Section MorePipelineFacts.
Variable TF_AVAILABLE : bool.
Variable PILImage : Type.
Variable b64decode : string -> outcome (list Byte.byte).
Variable Image_open : list Byte.byte -> outcome PILImage.
Variable convert_RGB : PILImage -> outcome RGBImage.
Variable LANCZOS : RGBImage -> nat * nat -> nat -> nat -> pixel.

#[local] Abbreviation preprocess_image := (preprocess_image PILImage convert_RGB LANCZOS).
#[local] Abbreviation decode_base64_image := (decode_base64_image PILImage b64decode Image_open).
#[local] Abbreviation classify :=
  (classify TF_AVAILABLE PILImage b64decode Image_open convert_RGB LANCZOS).
#[local] Abbreviation classify_produce :=
  (classify_produce TF_AVAILABLE PILImage b64decode Image_open convert_RGB LANCZOS).
#[local] Abbreviation classify_after_load :=
  (classify_after_load TF_AVAILABLE PILImage b64decode Image_open convert_RGB LANCZOS).
#[local] Abbreviation classify_vector_success :=
  (classify_vector_success TF_AVAILABLE PILImage b64decode Image_open convert_RGB LANCZOS).

(** X9: a payload without a comma decodes to the same image, or fails
    with the same exception, whether it comes bare or behind a prefix
    without a comma and one comma. *)
Theorem data_url_prefix_ignored (prefix payload : string) :
  contains "," prefix = false ->
  contains "," payload = false ->
  decode_base64_image (prefix ++ "," ++ payload)%string
  = decode_base64_image payload.
Proof.
  intros Hpre Hpay.
  rewrite !(decode_base64_image_eq PILImage b64decode Image_open).
  assert (data_url_payload (prefix ++ "," ++ payload) = payload) as ->.
  { unfold data_url_payload.
    change ("," ++ payload)%string with (String "," payload).
    rewrite after_first_app by done. by apply before_first_id. }
  assert (data_url_payload payload = payload) as ->; [|done].
  unfold data_url_payload. destruct (after_first "," payload) eqn:Ha; [|done].
  assert (contains "," payload = true) by (apply contains_after_first; eauto).
  congruence.
Qed.

Lemma classify_produce_fst fs g request self :
  (classify_produce fs g request self).1
  = (load_model TF_AVAILABLE fs (literal_str (request_produce_type request)) self).2.
Proof.
  unfold classify_produce. by rewrite classify_after_load.
Qed.

(** X10: whatever [classify] and the endpoint answer, success or
    exception, the classifier afterwards is the one [load_model] leaves
    for the requested produce type, so that type is cached after every
    request. *)
Theorem request_always_loads fs g request self :
  let pt := literal_str (request_produce_type request) in
  (classify fs g (image request) pt self).1
  = (load_model TF_AVAILABLE fs pt self).2 /\
  (classify_produce fs g request self).1
  = (load_model TF_AVAILABLE fs pt self).2 /\
  is_Some (models (classify_produce fs g request self).1 !! pt).
Proof.
  intros pt. rewrite classify_produce_fst. fold pt.
  split; [by rewrite classify_after_load|]. split; [done|].
  apply load_model_cached.
Qed.

(** X11: once a produce type is cached, [classify] for it does not
    depend on the filesystem: result and classifier afterwards are the
    same for any two filesystems. *)
Theorem cached_classify_ignores_filesystem fs fs' g image_base64 pt self :
  is_Some (models self !! pt) ->
  classify fs g image_base64 pt self = classify fs' g image_base64 pt self.
Proof.
  intros Hc. unfold classify.
  by rewrite (load_model_cached_any_fs TF_AVAILABLE fs fs' pt self Hc).
Qed.


Lemma classify_vector fs g image_base64 pt self im input_data v :
  decode_base64_image image_base64 = Ok im ->
  preprocess_image im = Ok input_data ->
  inference TF_AVAILABLE g pt
    (models (load_model TF_AVAILABLE fs pt self).2 !! pt) input_data
  = Ok v ->
  (classify fs g image_base64 pt self).2 = classify_response pt v.
Proof.
  intros Hd Hp Hi. rewrite classify_after_load. cbn [snd].
  rewrite Hd. cbn [mbind result_bind]. rewrite Hp. cbn [mbind result_bind].
  by rewrite Hi.
Qed.

Lemma classify_inference_raises fs g image_base64 pt self im input_data e :
  decode_base64_image image_base64 = Ok im ->
  preprocess_image im = Ok input_data ->
  inference TF_AVAILABLE g pt
    (models (load_model TF_AVAILABLE fs pt self).2 !! pt) input_data
  = Raise e ->
  (classify fs g image_base64 pt self).2 = Raise e.
Proof.
  intros Hd Hp Hi. rewrite classify_after_load. cbn [snd].
  rewrite Hd. cbn [mbind result_bind]. rewrite Hp. cbn [mbind result_bind].
  by rewrite Hi.
Qed.

(** X12: on the mock path (mock marker cached after [load_model], or
    TensorFlow missing), with draws in the promised ranges, a request
    whose image decodes and whose pixel data loads is answered 200: the
    result passes the response model, names the requested produce type,
    and carries the class names of that type's table (five for avocado,
    three for banana, in the order of the sort) with confidences in
    [0, 1]. *)
Theorem mock_request_answers_200 fs g request self im input_data :
  let pt := literal_str (request_produce_type request) in
  rng_ok g ->
  decode_base64_image (image request) = Ok im ->
  preprocess_image im = Ok input_data ->
  models (load_model TF_AVAILABLE fs pt self).2 !! pt = Some Mock
  \/ TF_AVAILABLE = false ->
  exists r,
    (classify_produce fs g request self).2 = Http200 r /\
    success r = true /\
    produce_type r = pt /\
    map class_name (all_predictions r)
    ≡ₚ match request_produce_type request with
       | avocado =>
           ["underripe"; "breaking"; "ripe_stage_1"; "ripe_stage_2"; "overripe"]
       | banana => ["unripe"; "ripe"; "overripe"]
       end /\
    Forall (fun it => 0 <= confidence it /\ confidence it <= 1)%Q
      (all_predictions r).
Proof.
  intros pt Hg Hd Hpre Hmock.
  destruct (mock_predict_distribution g pt Hg) as (v & Hv & Hlen & Hsum & Hrange).
  assert (Hcl : (classify fs g (image request) pt self).2 = classify_response pt v).
  { apply (classify_vector _ _ _ _ _ im input_data); [done|done|].
    rewrite (inference_mock TF_AVAILABLE); [done | done | apply load_model_cached]. }
  destruct v as [|c v].
  { destruct (mock_num_classes pt) as [Hn|Hn]; rewrite Hn in Hlen; done. }
  destruct (classify_response_ok pt c v) as (top & rest & Hs & Hr).
  set (items := prediction_items (dict_get class_mappings pt ∅) (c :: v)) in *.
  assert (Hperm : top :: rest ≡ₚ items)
    by (rewrite <- Hs; apply sort_reverse_perm).
  assert (Hconf : map confidence (top :: rest) ≡ₚ c :: v).
  { rewrite Hperm. subst items. by rewrite prediction_items_confidence. }
  assert (Hitems : Forall (fun it => 0 <= confidence it /\ confidence it <= 1)%Q
                     (top :: rest)).
  { assert (Hq : Forall (fun q => 0 <= q /\ q <= 1)%Q
                     (map confidence (top :: rest))) by (by rewrite Hconf).
    apply Forall_fmap in Hq. exact Hq. }
  eexists. split.
  - unfold classify_produce. fold pt.
    destruct (classify fs g (image request) pt self) as [self' res] eqn:Hc.
    cbn [snd] in Hcl |- *. rewrite Hcl, Hr. cbn [mbind result_bind].
    unfold ClassificationResponse.
    cbn [top_confidence all_predictions].
    assert (Hall : forallb (fun it => in_unit_interval (confidence it))
                     (top :: rest) = true).
    { apply forallb_forall. intros it Hit. apply in_unit_interval_iff.
      rewrite Forall_forall in Hitems. apply Hitems. by apply list_elem_of_In. }
    rewrite Hall.
    apply Forall_inv in Hitems. apply in_unit_interval_iff in Hitems.
    by rewrite Hitems.
  - cbn [success produce_type all_predictions].
    split; [done|]. split; [done|].
    split; [|done].
    rewrite Hperm. subst items pt. rewrite literal_table.
    rewrite mock_table in Hlen.
    destruct (request_produce_type request); cbn in Hlen.
    + destruct v as [|c1 [|c2 [|c3 [|c4 [|c5 v]]]]]; try done.
    + destruct v as [|c1 [|c2 [|c3 v]]]; try done.
Qed.

(** X13: when the image decodes, its pixel data loads and a real
    model's first output row holds a value outside [0, 1], building the
    response model from the result of [classify] raises a validation
    error, which the handler, treating it as a ValueError, answers with
    status 400. *)
Theorem out_of_range_confidence_answers_400
    fs g request self im input_data m v rest p :
  let pt := literal_str (request_produce_type request) in
  TF_AVAILABLE = true ->
  models (load_model TF_AVAILABLE fs pt self).2 !! pt = Some (Real m) ->
  decode_base64_image (image request) = Ok im ->
  preprocess_image im = Ok input_data ->
  m input_data = v :: rest ->
  p ∈ v ->
  ~ (0 <= p /\ p <= 1)%Q ->
  raises ((classify fs g (image request) pt self).2 ≫= ClassificationResponse)
         ValidationError /\
  exists detail,
    (classify_produce fs g request self).2 = HTTPException 400 detail.
Proof.
  intros pt Htf Hreal Hd Hpre Hout Hp Hbad.
  assert (Hcl : (classify fs g (image request) pt self).2 = classify_response pt v).
  { apply (classify_vector _ _ _ _ _ im input_data); [done|done|].
    rewrite Hreal. unfold inference. rewrite Htf. cbn [negb]. by rewrite Hout. }
  destruct v as [|c v]; [by apply elem_of_nil in Hp|].
  destruct (classify_response_ok pt c v) as (top & rest' & Hs & Hr).
  set (items := prediction_items (dict_get class_mappings pt ∅) (c :: v)) in *.
  assert (Hconf : map confidence (top :: rest') ≡ₚ c :: v).
  { rewrite <- Hs, sort_reverse_perm. subst items.
    by rewrite prediction_items_confidence. }
  assert (Hin : p ∈ map confidence (top :: rest')) by (by rewrite Hconf).
  apply list_elem_of_fmap in Hin as (it & -> & Hit).
  assert (Hv : ClassificationResponse
                 (MkResult true pt (class_name top) (class_label top)
                    (confidence top) (top :: rest'))
               = Raise (Exn ValidationError
                          "validation error for ClassificationResponse")).
  { unfold ClassificationResponse. cbn [top_confidence all_predictions].
    rewrite (forallb_elem_false _ _ it Hit), andb_false_r; [done|].
    apply not_true_is_false. by rewrite in_unit_interval_iff. }
  split.
  - rewrite Hcl, Hr. cbn [mbind result_bind]. rewrite Hv. by eexists.
  - unfold classify_produce. fold pt.
    destruct (classify fs g (image request) pt self) as [self' res] eqn:Hc.
    cbn [snd] in Hcl |- *. rewrite Hcl, Hr. cbn [mbind result_bind].
    rewrite Hv. cbn. by eexists.
Qed.

(** X14: when the image decodes, its pixel data loads and a real model
    returns no row, or an empty first row, [classify] raises IndexError
    and the endpoint answers 500. *)
Theorem empty_output_answers_500 fs g request self im input_data m :
  let pt := literal_str (request_produce_type request) in
  TF_AVAILABLE = true ->
  models (load_model TF_AVAILABLE fs pt self).2 !! pt = Some (Real m) ->
  decode_base64_image (image request) = Ok im ->
  preprocess_image im = Ok input_data ->
  m input_data = [] \/ (exists rest, m input_data = [] :: rest) ->
  raises (classify fs g (image request) pt self).2 IndexError /\
  exists detail,
    (classify_produce fs g request self).2 = HTTPException 500 detail.
Proof.
  intros pt Htf Hreal Hd Hpre Hout.
  assert (Hcl : (classify fs g (image request) pt self).2
                = Raise (Exn IndexError "index out of range")).
  { destruct Hout as [Hout|[rest Hout]].
    - apply (classify_inference_raises _ _ _ _ _ im input_data); [done|done|].
      rewrite Hreal. unfold inference. rewrite Htf. cbn [negb]. by rewrite Hout.
    - rewrite (classify_vector _ _ _ _ _ im input_data []); [done|done|done|].
      rewrite Hreal. unfold inference. rewrite Htf. cbn [negb]. by rewrite Hout. }
  split; [rewrite Hcl; by eexists|].
  unfold classify_produce. fold pt.
  destruct (classify fs g (image request) pt self) as [self' res] eqn:Hc.
  cbn [snd] in Hcl |- *. rewrite Hcl. by eexists.
Qed.

(** X15: on the mock path the outcome of [classify] is the same for any
    two inputs that decode to an image whose pixel data loads; with a
    real model cached and TensorFlow available it is the same for any
    two sets of random draws. *)
Theorem mock_ignores_image_real_ignores_draws fs g image_base64 pt self :
  (forall image_base64' im im' input_data input_data',
     decode_base64_image image_base64 = Ok im ->
     preprocess_image im = Ok input_data ->
     decode_base64_image image_base64' = Ok im' ->
     preprocess_image im' = Ok input_data' ->
     models (load_model TF_AVAILABLE fs pt self).2 !! pt = Some Mock
     \/ TF_AVAILABLE = false ->
     classify fs g image_base64' pt self = classify fs g image_base64 pt self) /\
  (forall g' m,
     TF_AVAILABLE = true ->
     models (load_model TF_AVAILABLE fs pt self).2 !! pt = Some (Real m) ->
     classify fs g' image_base64 pt self = classify fs g image_base64 pt self).
Proof.
  split.
  - intros image_base64' im im' input_data input_data' Hd Hp Hd' Hp' Hmock.
    rewrite !classify_after_load. cbv zeta. f_equal.
    rewrite Hd, Hd'. cbn [mbind result_bind].
    rewrite Hp, Hp'. cbn [mbind result_bind].
    by rewrite !(inference_mock TF_AVAILABLE)
      by (done || apply load_model_cached).
  - intros g' m Htf Hreal.
    rewrite !classify_after_load. cbv zeta. f_equal.
    rewrite Hreal. unfold inference. by rewrite Htf.
Qed.

(** X18: when the input decodes to an image whose pixel data does not
    load (a truncated file, which [Image.open] still opens),
    [preprocess_image] raises OSError; [classify] raises it whatever
    handle is cached, and the endpoint answers 500 with the detail
    "Classification failed: " followed by the library's message. *)
Theorem unloadable_image_answers_500 fs g request self im msg :
  let pt := literal_str (request_produce_type request) in
  decode_base64_image (image request) = Ok im ->
  convert_RGB im = Fails msg ->
  preprocess_image im = Raise (Exn OSError msg) /\
  (classify fs g (image request) pt self).2 = Raise (Exn OSError msg) /\
  (classify_produce fs g request self).2
  = HTTPException 500 ("Classification failed: " ++ msg).
Proof.
  intros pt Hd Hc.
  assert (Hp : preprocess_image im = Raise (Exn OSError msg))
    by (unfold preprocess_image; by rewrite Hc).
  assert (Hcl : (classify fs g (image request) pt self).2
                = Raise (Exn OSError msg)).
  { rewrite classify_after_load. cbn [snd].
    rewrite Hd. cbn [mbind result_bind]. by rewrite Hp. }
  split; [done|]. split; [done|].
  unfold classify_produce. fold pt.
  destruct (classify fs g (image request) pt self) as [self' res].
  cbn [snd] in Hcl |- *. by rewrite Hcl.
Qed.

End MorePipelineFacts.

(** ** The application *)

Section AppFacts.
Variable TF_AVAILABLE : bool.
Variable MODELS_DIR : string.
Variable PILImage : Type.
Variable b64decode : string -> outcome (list Byte.byte).
Variable Image_open : list Byte.byte -> outcome PILImage.
Variable convert_RGB : PILImage -> outcome RGBImage.
Variable LANCZOS : RGBImage -> nat * nat -> nat -> nat -> pixel.

#[local] Abbreviation serve :=
  (serve TF_AVAILABLE MODELS_DIR PILImage b64decode Image_open convert_RGB LANCZOS).
#[local] Abbreviation serve_all :=
  (serve_all TF_AVAILABLE MODELS_DIR PILImage b64decode Image_open convert_RGB LANCZOS).
#[local] Abbreviation post_classify :=
  (post_classify TF_AVAILABLE MODELS_DIR PILImage b64decode Image_open convert_RGB LANCZOS).
#[local] Abbreviation lifespan := (lifespan TF_AVAILABLE MODELS_DIR).

Lemma serve_some e c :
  exists calls, serve (Some c) e = Some (load_models TF_AVAILABLE calls c).
Proof.
  destruct e as [fs| | |fs g request]; cbn.
  - by exists [(fs, "avocado")].
  - by exists [].
  - by exists [].
  - exists [(fs, literal_str (request_produce_type request))].
    unfold post_classify, post_classify. cbn.
    pose proof (classify_produce_fst TF_AVAILABLE PILImage b64decode Image_open
                  convert_RGB LANCZOS fs g request c) as Hf.
    destruct (classify_produce _ _ _ _ _ _ _ _ _ _) as [c' resp].
    cbn in Hf |- *. by rewrite Hf.
Qed.

Lemma serve_all_some events c :
  exists calls,
    serve_all events (Some c) = Some (load_models TF_AVAILABLE calls c).
Proof.
  revert c. induction events as [|e events IH]; intros c.
  - by exists [].
  - destruct (serve_some e c) as [calls Hc].
    destruct (IH (load_models TF_AVAILABLE calls c)) as [calls' Hc'].
    exists (calls ++ calls'). cbn [serve_all foldl] in *.
    unfold serve_all in Hc'. rewrite Hc, Hc'. by rewrite load_models_app.
Qed.

(** X16: in a fresh process, startup creates the singleton with the
    avocado handle cached; whatever startups and requests follow, the
    singleton keeps that avocado handle and its models directory, stays
    out of mock mode while TensorFlow is available, and without
    TensorFlow the avocado handle is the mock marker. *)
Theorem startup_fixes_avocado fs0 events :
  exists c0 c h,
    lifespan fs0 None = Some c0 /\
    models c0 !! "avocado" = Some h /\
    serve_all events (Some c0) = Some c /\
    models c !! "avocado" = Some h /\
    models_dir c = MODELS_DIR /\
    (TF_AVAILABLE = true -> use_mock c = false) /\
    (TF_AVAILABLE = false -> h = Mock).
Proof.
  set (c0 := (load_model TF_AVAILABLE fs0 "avocado" (init MODELS_DIR false)).2).
  assert (Hinv : registry_inv TF_AVAILABLE c0)
    by apply registry_inv_load_model, registry_inv_init.
  destruct (load_model_cached TF_AVAILABLE fs0 "avocado" (init MODELS_DIR false))
    as [h Hh]. fold c0 in Hh.
  destruct (serve_all_some events c0) as [calls Hcalls].
  exists c0, (load_models TF_AVAILABLE calls c0), h.
  split; [done|]. split; [done|]. split; [done|].
  split; [by apply load_models_keeps|].
  split; [|split].
  - rewrite load_models_models_dir. apply load_model_models_dir.
  - intros Htf.
    rewrite (load_models_use_mock TF_AVAILABLE calls c0 Htf).
    subst c0.
    by rewrite (proj2 (load_model_use_mock TF_AVAILABLE fs0 "avocado"
                         (init MODELS_DIR false)) Htf).
  - intros Htf. apply (Hinv (or_intror Htf) _ _ Hh).
Qed.

(** X17: after startup, and whatever was served since, the answer to an
    avocado request and the singleton it leaves do not depend on the
    filesystem at the time of the request. *)
Theorem avocado_requests_ignore_later_files fs0 events fs fs' g image_base64 :
  let served := serve_all events (lifespan fs0 None) in
  post_classify fs g (MkRequest image_base64 avocado) served
  = post_classify fs' g (MkRequest image_base64 avocado) served.
Proof.
  set (c0 := (load_model TF_AVAILABLE fs0 "avocado" (init MODELS_DIR false)).2).
  change (lifespan fs0 None) with (Some c0). cbv zeta.
  destruct (serve_all_some events c0) as [calls ->].
  assert (Hc : is_Some (models (load_models TF_AVAILABLE calls c0) !! "avocado")).
  { destruct (load_model_cached TF_AVAILABLE fs0 "avocado" (init MODELS_DIR false))
      as [h Hh]. exists h.
    apply load_models_keeps; [|exact Hh].
    apply registry_inv_load_model, registry_inv_init. }
  unfold post_classify, classify_produce, classify.
  cbn [get_classifier image request_produce_type literal_str].
  by rewrite (load_model_cached_any_fs TF_AVAILABLE fs fs' "avocado" _ Hc).
Qed.

End AppFacts.

(** ** The further facts on concrete inputs *)

Lemma load_model_frame_witness :
  models (load_model false avocado_h5 "avocado"
            (set_model "banana" Mock (init "models" false))).2 !! "banana"
  = Some Mock /\
  use_mock (load_model false avocado_h5 "avocado"
              (set_model "banana" Mock (init "models" false))).2 = true.
Proof.
  destruct (load_model_frame false avocado_h5 "avocado"
              (set_model "banana" Mock (init "models" false)))
    as (_ & Hflag & Hother).
  split.
  - rewrite (Hother "banana"); [reflexivity | discriminate].
  - rewrite Hflag. reflexivity.
Defined.

Lemma load_model_real_iff_witness :
  models (load_model true avocado_h5 "avocado" (init "models" false)).2
    !! "avocado" = Some (Real two_output_model).
Proof.
  apply (load_model_real_iff true avocado_h5 "avocado" (init "models" false));
    [reflexivity|].
  split; [reflexivity|]. split; [reflexivity|].
  exists ["models"; "avocado"; "keras_model.h5"]. split; reflexivity.
Defined.

Lemma use_mock_only_rises_witness :
  use_mock (load_models false [(no_models, "avocado"); (avocado_h5, "banana")]
              (init "models" true)) = true.
Proof.
  apply (proj1 (use_mock_only_rises false
                  [(no_models, "avocado"); (avocado_h5, "banana")]
                  (init "models" true))).
  reflexivity.
Defined.

Lemma mock_predict_is_distribution_witness :
  exists v,
    _mock_predict half_draws "banana" = Ok v /\
    length v = 3%nat /\
    (sum v == 1)%Q /\
    Forall (fun p => 0 <= p /\ p <= 1)%Q v.
Proof.
  apply (mock_predict_is_distribution half_draws "banana"). exact half_draws_ok.
Defined.

Lemma response_keeps_every_item_witness :
  raises (classify_response "banana" []) IndexError /\
  exists r,
    classify_response "banana" [1 # 4; 1 # 2; 1 # 4]%Q = Ok r /\
    produce_type r = "banana" /\
    length (all_predictions r) = 3%nat /\
    all_predictions r
    ≡ₚ prediction_items (dict_get class_mappings "banana" ∅)
         [1 # 4; 1 # 2; 1 # 4]%Q /\
    map confidence (all_predictions r) ≡ₚ [1 # 4; 1 # 2; 1 # 4]%Q.
Proof.
  split.
  - apply (response_keeps_every_item "banana" []). reflexivity.
  - apply (response_keeps_every_item "banana" [1 # 4; 1 # 2; 1 # 4]%Q).
    discriminate.
Defined.

Lemma top_is_first_maximum_witness :
  exists r i c,
    classify_response "banana" [1 # 4; 1 # 2; 1 # 2]%Q = Ok r /\
    [1 # 4; 1 # 2; 1 # 2]%Q !! i = Some c /\
    top_confidence r = c /\
    Forall (fun p => p <= c)%Q [1 # 4; 1 # 2; 1 # 2]%Q /\
    (forall j p, (j < i)%nat ->
       [1 # 4; 1 # 2; 1 # 2]%Q !! j = Some p -> (p < c)%Q) /\
    (let info := dict_get (dict_get class_mappings "banana" ∅) i
                   (ClassInfo ("class_" ++ pretty i) ("Class " ++ pretty i)) in
     predicted_class r = name info /\ predicted_label r = label info).
Proof.
  apply (top_is_first_maximum "banana" [1 # 4; 1 # 2; 1 # 2]%Q). discriminate.
Defined.

Lemma data_url_prefix_ignored_witness :
  fake_decode ("data:image/png;base64," ++ pixel_png_b64)%string
  = fake_decode pixel_png_b64.
Proof.
  apply (data_url_prefix_ignored fake_image fake_b64decode fake_Image_open
           "data:image/png;base64" pixel_png_b64); reflexivity.
Defined.

Lemma cached_classify_ignores_filesystem_witness :
  fake_classify avocado_h5 half_draws pixel_png_b64 "avocado"
    (load_model true no_models "avocado" (init "models" false)).2
  = fake_classify no_models half_draws pixel_png_b64 "avocado"
      (load_model true no_models "avocado" (init "models" false)).2.
Proof.
  apply (cached_classify_ignores_filesystem true fake_image fake_b64decode
           fake_Image_open fake_convert_RGB fake_LANCZOS).
  exists Mock. vm_compute; reflexivity.
Defined.

Lemma mock_request_answers_200_witness :
  exists r,
    (fake_classify_produce no_models half_draws
       (MkRequest pixel_png_b64 banana) (init "models" false)).2 = Http200 r /\
    success r = true /\
    produce_type r = "banana" /\
    map class_name (all_predictions r) ≡ₚ ["unripe"; "ripe"; "overripe"] /\
    Forall (fun it => 0 <= confidence it /\ confidence it <= 1)%Q
      (all_predictions r).
Proof.
  eapply (mock_request_answers_200 true fake_image fake_b64decode
            fake_Image_open fake_convert_RGB fake_LANCZOS no_models half_draws
            (MkRequest pixel_png_b64 banana) (init "models" false)
            (Complete one_pixel)).
  - exact half_draws_ok.
  - exact fake_decode_pixel_png.
  - reflexivity.
  - left. vm_compute; reflexivity.
Defined.

Lemma out_of_range_confidence_answers_400_witness :
  exists detail,
    (fake_classify_produce (h5_with logit_model) half_draws
       (MkRequest pixel_png_b64 avocado) (init "models" false)).2
    = HTTPException 400 detail.
Proof.
  eapply (out_of_range_confidence_answers_400 true fake_image fake_b64decode
            fake_Image_open fake_convert_RGB fake_LANCZOS (h5_with logit_model)
            half_draws (MkRequest pixel_png_b64 avocado) (init "models" false)
            (Complete one_pixel) _ logit_model [3 # 2; - (1 # 2)]%Q []
            (3 # 2)%Q).
  - reflexivity.
  - vm_compute; reflexivity.
  - exact fake_decode_pixel_png.
  - reflexivity.
  - reflexivity.
  - constructor.
  - intros [_ Hle]. lra.
Defined.

Lemma empty_output_answers_500_witness :
  exists detail,
    (fake_classify_produce (h5_with empty_row_model) half_draws
       (MkRequest pixel_png_b64 avocado) (init "models" false)).2
    = HTTPException 500 detail.
Proof.
  eapply (empty_output_answers_500 true fake_image fake_b64decode
            fake_Image_open fake_convert_RGB fake_LANCZOS
            (h5_with empty_row_model) half_draws
            (MkRequest pixel_png_b64 avocado) (init "models" false)
            (Complete one_pixel) _ empty_row_model).
  - reflexivity.
  - vm_compute; reflexivity.
  - exact fake_decode_pixel_png.
  - reflexivity.
  - right. exists []. reflexivity.
Defined.

Lemma mock_ignores_image_real_ignores_draws_witness :
  fake_classify no_models half_draws
    ("data:image/png;base64," ++ pixel_png_b64)%string
    "banana" (init "models" false)
  = fake_classify no_models half_draws pixel_png_b64 "banana"
      (init "models" false).
Proof.
  eapply (proj1 (mock_ignores_image_real_ignores_draws true fake_image
                   fake_b64decode fake_Image_open fake_convert_RGB fake_LANCZOS
                   no_models half_draws pixel_png_b64 "banana"
                   (init "models" false)))
    with (im := Complete one_pixel) (im' := Complete one_pixel).
  - exact fake_decode_pixel_png.
  - reflexivity.
  - vm_compute; reflexivity.
  - reflexivity.
  - left. vm_compute; reflexivity.
Defined.

Lemma unloadable_image_answers_500_witness :
  fake_decode truncated_png_b64 = Ok Truncated /\
  fake_preprocess Truncated = Raise (Exn OSError "image file is truncated") /\
  (fake_classify no_models half_draws truncated_png_b64 "avocado"
     (init "models" false)).2 = Raise (Exn OSError "image file is truncated") /\
  (fake_classify_produce no_models half_draws
     (MkRequest truncated_png_b64 avocado) (init "models" false)).2
  = HTTPException 500 "Classification failed: image file is truncated".
Proof.
  split; [vm_compute; reflexivity|].
  apply (unloadable_image_answers_500 true fake_image fake_b64decode
           fake_Image_open fake_convert_RGB fake_LANCZOS no_models half_draws
           (MkRequest truncated_png_b64 avocado) (init "models" false)
           Truncated "image file is truncated").
  - vm_compute; reflexivity.
  - reflexivity.
Defined.

Lemma startup_fixes_avocado_witness :
  exists c0 c h,
    lifespan true "models" avocado_h5 None = Some c0 /\
    models c0 !! "avocado" = Some h /\
    serve_all true "models" fake_image fake_b64decode fake_Image_open
      fake_convert_RGB fake_LANCZOS
      [GetHealth; PostClassify no_models half_draws (MkRequest "aGVsbG8=" banana)]
      (Some c0) = Some c /\
    models c !! "avocado" = Some h /\
    models_dir c = "models" /\
    (true = true -> use_mock c = false) /\
    (true = false -> h = Mock).
Proof.
  apply (startup_fixes_avocado true "models" fake_image fake_b64decode
           fake_Image_open fake_convert_RGB fake_LANCZOS avocado_h5
           [GetHealth;
            PostClassify no_models half_draws (MkRequest "aGVsbG8=" banana)]).
Defined.
